(** * A shallow embedding of [main.js] of nodejs-storage-timeline-pdf

    The module [main.js] holds several concatenated revisions of the library.
    This development embeds the revision with [toMarkDown], [toHTML], [toPDF]
    and [toBuffer] taking a [timeLineName] (the second [allEvents], together
    with the [gatherAllEvents], [formatTime], [defaultMarkdownFormatter],
    [defaultHTMLFormatter], [buildJSONMarkdownFormatter] and
    [buildJSONHTMLFormatter] it uses); the first and third revisions of
    [allEvents] (modules [Rev1] and [Rev3]) and [processNextString] are
    embedded further down.

    Conventions.
    - A JavaScript string is a [string] whose characters are read as the code
      points U+0000..U+00FF (strings outside that range are not modelled).
    - A promise is represented by the value it settles to ([Pending] when it
      never settles).  A [.then] callback runs exactly once, when its source
      promise fulfils; the calls the callbacks make are recorded in a trace.
    - The host's built-ins that depend on the environment (the locale
      rendering of a date, [JSON.parse], the members of the built-in
      prototypes, [String.prototype.toUpperCase], and the puppeteer based
      [htmlToPDF]) are section variables; concrete instances for one host
      are given further down and used to evaluate examples. *)

From Stdlib Require Import ZArith String Ascii List Bool Lia.
From Stdlib Require Import Numbers.DecimalString.
Import ListNotations.

Open Scope string_scope.

(** ** Strings *)

Definition nl : string := String "010"%char EmptyString.
Definition dq : string := String "034"%char EmptyString.

(** [Array.prototype.join] on an array of strings. *)
Fixpoint join (sep : string) (l : list string) : string :=
  match l with
  | [] => ""
  | [x] => x
  | x :: r => x ++ sep ++ join sep r
  end.

(** [markdown.replace(/\n/g, '<br>')]. *)
Fixpoint replace_newlines (s : string) : string :=
  match s with
  | EmptyString => EmptyString
  | String c r =>
      if Ascii.eqb c "010"%char then "<br>" ++ replace_newlines r
      else String c (replace_newlines r)
  end.

(** Decimal rendering of an integer ([Number.prototype.toString] on an
    integral value). *)
Definition Z_to_string (z : Z) : string :=
  NilEmpty.string_of_int (Z.to_int z).

(** [Buffer.from(s, "utf-8")]: the UTF-8 encoding of the code points. *)
Definition utf8_of_char (c : ascii) : list Byte.byte :=
  let n := N_of_ascii c in
  if (n <? 128)%N then [Ascii.byte_of_ascii c]
  else [Ascii.byte_of_ascii (ascii_of_N (N.lor 192 (N.shiftr n 6)));
        Ascii.byte_of_ascii (ascii_of_N (N.lor 128 (N.land n 63)))].

Fixpoint utf8_encode (s : string) : list Byte.byte :=
  match s with
  | EmptyString => []
  | String c r => utf8_of_char c ++ utf8_encode r
  end.

(** ** Errors, completions and promises *)

Inductive js_error : Type :=
| FetchError (msg : string)   (* the [err] passed by [timeLine.nextString] *)
| TypeError (msg : string)    (* raised by the language itself *)
| RenderError (msg : string)  (* raised by puppeteer inside [htmlToPDF] *)
| FormatError (msg : string). (* thrown by a caller supplied formatter *)

(** The completion of a synchronous call: a value or a thrown exception. *)
Inductive completion (A : Type) : Type :=
| Normal (a : A)
| Throw (e : js_error).
Arguments Normal {A} a.
Arguments Throw {A} e.

Definition cbind {A B} (c : completion A) (k : A -> completion B) : completion B :=
  match c with
  | Normal a => k a
  | Throw e => Throw e
  end.

(** [Array.prototype.map] with a callback that may throw: the first
    exception aborts the map. *)
Fixpoint cmap {A B} (f : A -> completion B) (l : list A) : completion (list B) :=
  match l with
  | [] => Normal []
  | x :: r => cbind (f x) (fun y => cbind (cmap f r) (fun ys => Normal (y :: ys)))
  end.

Inductive promise (A : Type) : Type :=
| Pending
| Fulfilled (a : A)
| Rejected (e : js_error).
Arguments Pending {A}.
Arguments Fulfilled {A} a.
Arguments Rejected {A} e.

Definition promise_of_completion {A} (c : completion A) : promise A :=
  match c with
  | Normal a => Fulfilled a
  | Throw e => Rejected e
  end.

(** [p.then(k)]: [k] runs only when [p] fulfils; a rejection is passed on. *)
Definition then_ {A B} (p : promise A) (k : A -> promise B) : promise B :=
  match p with
  | Pending => Pending
  | Fulfilled a => k a
  | Rejected e => Rejected e
  end.

Definition is_fulfilled {A} (p : promise A) : bool :=
  match p with Fulfilled _ => true | _ => false end.

(** ** [Number(s)] on a string (ECMA-262 StringToNumber)

    The string is first read as a numeric literal, whose mathematical value
    [LitDecimal neg m e] is [(-1)^neg * m * 10^e] exactly; that value is then
    rounded to the nearest binary64 double, ties to even.  A double
    [Finite neg q k] is [(-1)^neg * q * 2^k] with [0 <= q < 2^53] and
    [-1074 <= k <= 971]. *)

Open Scope Z_scope.

Inductive js_number : Type :=
| NaN
| Infinite (neg : bool)
| Finite (neg : bool) (q : Z) (k : Z).

(** The mathematical value of a StringNumericLiteral. *)
Inductive js_literal : Type :=
| LitInfinity (neg : bool)
| LitDecimal (neg : bool) (m : Z) (e : Z).

(** StrWhiteSpaceChar among U+0000..U+00FF: TAB, LF, VT, FF, CR, SPACE, NBSP. *)
Definition is_js_whitespace (c : ascii) : bool :=
  let n := nat_of_ascii c in
  (Nat.leb 9 n && Nat.leb n 13) || Nat.eqb n 32 || Nat.eqb n 160.

Fixpoint drop_while (p : ascii -> bool) (l : list ascii) : list ascii :=
  match l with
  | [] => []
  | c :: r => if p c then drop_while p r else l
  end.

Definition trim (l : list ascii) : list ascii :=
  rev (drop_while is_js_whitespace (rev (drop_while is_js_whitespace l))).

Fixpoint span (p : ascii -> bool) (l : list ascii) : list ascii * list ascii :=
  match l with
  | [] => ([], [])
  | c :: r => if p c then let (a, b) := span p r in (c :: a, b) else ([], l)
  end.

(** The value of a digit character, 99 for any other character. *)
Definition digit_value (c : ascii) : Z :=
  let n := Z.of_nat (nat_of_ascii c) in
  if (48 <=? n) && (n <=? 57) then n - 48
  else if (97 <=? n) && (n <=? 102) then n - 87
  else if (65 <=? n) && (n <=? 70) then n - 55
  else 99.

Definition is_digit_in (base : Z) (c : ascii) : bool := digit_value c <? base.

Definition digits_value (base : Z) (l : list ascii) : Z :=
  fold_left (fun acc c => acc * base + digit_value c) l 0.

Definition is_nil {A} (l : list A) : bool :=
  match l with [] => true | _ => false end.

(** ExponentPart, or nothing at all (exponent 0). *)
Definition parse_exponent (l : list ascii) : option Z :=
  match l with
  | [] => Some 0%Z
  | c :: r =>
      if Ascii.eqb c "e" || Ascii.eqb c "E" then
        let '(sgn, r') :=
          match r with
          | s :: r'' =>
              if Ascii.eqb s "+" then (1%Z, r'')
              else if Ascii.eqb s "-" then ((-1)%Z, r'')
              else (1%Z, r)
          | [] => (1%Z, r)
          end in
        let (d, rest) := span (is_digit_in 10) r' in
        if negb (is_nil d) && is_nil rest then Some (sgn * digits_value 10 d)%Z
        else None
      else None
  end.

(** StrUnsignedDecimalLiteral. *)
Definition parse_unsigned_decimal (neg : bool) (l : list ascii) : option js_literal :=
  if list_eq_dec Ascii.ascii_dec l (list_ascii_of_string "Infinity")
  then Some (LitInfinity neg)
  else
    let (d1, r1) := span (is_digit_in 10) l in
    match r1 with
    | c :: r2 =>
        if Ascii.eqb c "." then
          let (d2, r3) := span (is_digit_in 10) r2 in
          if is_nil d1 && is_nil d2 then None
          else option_map
                 (fun x => LitDecimal neg (digits_value 10 (d1 ++ d2))
                                      (x - Z.of_nat (length d2)))
                 (parse_exponent r3)
        else if is_nil d1 then None
        else option_map (LitDecimal neg (digits_value 10 d1)) (parse_exponent r1)
    | [] => if is_nil d1 then None else Some (LitDecimal neg (digits_value 10 d1) 0)
    end.

(** NonDecimalIntegerLiteral: [0b], [0o], [0x] and their capitals. *)
Definition parse_non_decimal (l : list ascii) : option js_literal :=
  match l with
  | z :: x :: r =>
      if Ascii.eqb z "0" then
        let base :=
          if Ascii.eqb x "b" || Ascii.eqb x "B" then 2%Z
          else if Ascii.eqb x "o" || Ascii.eqb x "O" then 8%Z
          else if Ascii.eqb x "x" || Ascii.eqb x "X" then 16%Z
          else 0%Z in
        if (base =? 0)%Z then None
        else if negb (is_nil r) && forallb (is_digit_in base) r
        then Some (LitDecimal false (digits_value base r) 0)
        else None
      else None
  | _ => None
  end.

(** [n / d] rounded to the nearest integer, ties to even ([0 <= n], [0 < d]). *)
Definition round_half_even (n d : Z) : Z :=
  let q := n / d in
  match Z.compare (2 * (n mod d)) d with
  | Lt => q
  | Gt => q + 1
  | Eq => if Z.even q then q else q + 1
  end.

(** [(n, d)] scaled to [(n / 2^k)] as a fraction. *)
Definition scale2 (n d k : Z) : Z * Z :=
  if 0 <=? k then (n, d * 2 ^ k) else (n * 2 ^ (- k), d).

(** The double nearest to [(-1)^neg * n / d] ([0 < n], [0 < d]): the binary
    exponent [k] puts [n / d / 2^k] in [[2^52, 2^53)], or is [-1074] for a
    subnormal; a significand rounded up to [2^53] moves to the next binade,
    and a value past the largest finite double becomes an infinity. *)
Definition binary64_of_ratio (neg : bool) (n d : Z) : js_number :=
  let k0 := Z.log2 n - Z.log2 d - 52 in
  let k1 := let '(a, b) := scale2 n d k0 in if a <? b * 2 ^ 52 then k0 - 1 else k0 in
  let k := Z.max k1 (-1074) in
  let '(a, b) := scale2 n d k in
  let q := round_half_even a b in
  let '(q', k') := if q =? 2 ^ 53 then (2 ^ 52, k + 1) else (q, k) in
  if 971 <? k' then Infinite neg else Finite neg q' k'.

(** RoundMVResult: the double of a literal's mathematical value.  A literal
    of at least [10^309] is an infinity and one below [10^-324] is a zero
    without computing the power of ten. *)
Definition number_of_literal (lit : js_literal) : js_number :=
  match lit with
  | LitInfinity neg => Infinite neg
  | LitDecimal neg m e =>
      if m =? 0 then Finite neg 0 0
      else if 309 <=? e then Infinite neg
      else if e + Z.log2 m + 1 <? -324 then Finite neg 0 0
      else if 0 <=? e then binary64_of_ratio neg (m * 10 ^ e) 1
      else binary64_of_ratio neg m (10 ^ (- e))
  end.

Definition StringToNumber (s : string) : js_number :=
  let l := trim (list_ascii_of_string s) in
  match l with
  | [] => Finite false 0 0
  | c :: r =>
      let parsed :=
        match parse_non_decimal l with
        | Some n => Some n
        | None =>
            if Ascii.eqb c "+" then parse_unsigned_decimal false r
            else if Ascii.eqb c "-" then parse_unsigned_decimal true r
            else parse_unsigned_decimal false l
        end in
      match parsed with Some lit => number_of_literal lit | None => NaN end
  end.

Definition isNaN (n : js_number) : bool :=
  match n with NaN => true | _ => false end.

(** TimeClip in [new Date(n)]: a magnitude above [8.64e15] is an invalid
    date, any other double is truncated towards zero; the time value in
    milliseconds, or [None] for an invalid date. *)
Definition max_time_value : Z := 8640000000000000.

Definition TimeClip (n : js_number) : option Z :=
  match n with
  | NaN | Infinite _ => None
  | Finite neg q k =>
      if 0 <=? k then
        let v := q * 2 ^ k in
        if v <=? max_time_value then Some (if neg then - v else v) else None
      else
        let d := 2 ^ (- k) in
        if q <=? max_time_value * d
        then Some (if neg then - (q / d) else q / d)
        else None
  end.

Open Scope string_scope.

Section FormatTime.

(** [Date.prototype.toLocaleString] on a valid time value (milliseconds since
    the epoch): depends on the host's locale and time zone. *)
Variable toLocaleString_ms : Z -> string.

(** [new Date(parsed).toLocaleString()]. *)
Definition date_toLocaleString (n : js_number) : string :=
  match TimeClip n with
  | Some ms => toLocaleString_ms ms
  | None => "Invalid Date"
  end.

(** [formatTime] (main.js, lines 174-180). *)
Definition formatTime (time : string) : string :=
  let parsed := StringToNumber time in
  if negb (isNaN parsed) then date_toLocaleString parsed else time.

End FormatTime.

(** ** Events and the default formatters *)

(** An event as yielded by [timeLine.nextString]. *)
Record event : Type := mkEvent { time : string; value : string }.

(** A formatter: [(events, timelineName) => string], which may throw. *)
Definition formatter : Type := list event -> string -> completion string.

Definition markdown_divider : string := nl ++ "---" ++ nl ++ nl.
Definition html_divider : string := nl ++ "<hr>" ++ nl.

Section DefaultFormatters.

Variable toLocaleString_ms : Z -> string.

(** The section built for one event by [defaultMarkdownFormatter]. *)
Definition markdown_section (e : event) : string :=
  let displayTime := formatTime toLocaleString_ms (time e) in
  "## " ++ displayTime ++ nl ++ nl ++ value e ++ nl.

(** [defaultMarkdownFormatter] (main.js, lines 190-198). *)
Definition defaultMarkdownFormatter (events : list event) (timelineName : string)
  : string :=
  "# " ++ timelineName ++ nl ++ nl ++
  join markdown_divider (map markdown_section events).

(** The section built for one event by [defaultHTMLFormatter]. *)
Definition html_section (displayTime value : string) : string :=
  "
                <section class=" ++ dq ++ "event" ++ dq ++ ">
                    <h2>" ++ displayTime ++ "</h2>
                    <div class=" ++ dq ++ "event-content" ++ dq ++ ">
                        " ++ value ++ "
                    </div>
                </section>
            ".

Definition html_event_section (e : event) : string :=
  html_section (formatTime toLocaleString_ms (time e)) (value e).

(** The page template of [defaultHTMLFormatter]. *)
Definition html_page (timelineName eventsSections : string) : string :=
  "
        <!DOCTYPE html>
        <html lang=" ++ dq ++ "utf-8" ++ dq ++ ">
        <head>
            <meta charset=" ++ dq ++ "UTF-8" ++ dq ++ ">
            <style>
                body {
                    font-family: Arial, sans-serif;
                    line-height: 1.6;
                    margin: 2cm;
                    color: #333;
                }
                h1 {
                    color: #222;
                    text-align: center;
                    margin-bottom: 1.5em;
                }
                h2 {
                    color: #333;
                    border-bottom: 1px solid #eee;
                    padding-bottom: 0.5em;
                    margin-top: 1.5em;
                }
                .event {
                    margin-bottom: 2em;
                }
                .event-content {
                    margin: 1em 0;
                }
                hr {
                    border: none;
                    border-top: 1px solid #eee;
                    margin: 2em 0;
                }
            </style>
            <title>" ++ timelineName ++ "</title>
        </head>
        <body>
            <h1>" ++ timelineName ++ "</h1>
            " ++ eventsSections ++ "
        </body>
        </html>
    ".

(** [defaultHTMLFormatter] (main.js, lines 208-266). *)
Definition defaultHTMLFormatter (events : list event) (timelineName : string)
  : string :=
  html_page timelineName (join html_divider (map html_event_section events)).

End DefaultFormatters.

(** ** Values produced by [JSON.parse], member access and string conversion *)

Set Warnings "-register-all".

Inductive jsval : Type :=
| JNull
| JBool (b : bool)
| JNum (text : string)          (* a number, by its [Number::toString] text *)
| JStr (s : string)
| JArr (xs : list jsval)
| JObj (props : list (string * jsval))
| JHost (text : string).        (* a built-in of the host, by its string conversion *)

(** The built-in prototypes a member lookup can fall back to. *)
Inductive prototype : Type :=
| ObjectPrototype
| ArrayPrototype
| StringPrototype
| NumberPrototype
| BooleanPrototype.

(** The own data property [k] of an object built by [JSON.parse] or by an
    object literal: with repeated keys the last one wins. *)
Definition own_lookup (props : list (string * jsval)) (k : string) : option jsval :=
  fold_left (fun acc kv => if String.eqb (fst kv) k then Some (snd kv) else acc)
            props None.

(** Canonical array index: ["0"] or a decimal numeral without leading zero. *)
Definition array_index (k : string) : option nat :=
  match list_ascii_of_string k with
  | [] => None
  | c :: r =>
      if forallb (is_digit_in 10) (c :: r) && (negb (Ascii.eqb c "0") || is_nil r)
      then Some (Z.to_nat (digits_value 10 (c :: r)))
      else None
  end.

(** The template literal conversion [`${v}`] (ToString of ToPrimitive with
    hint string).  An object built by [JSON.parse] with an own ["toString"]
    key has no callable [toString], and [Object.prototype.valueOf] returns the
    object itself: the conversion throws. *)
Fixpoint js_ToString (v : jsval) : completion string :=
  match v with
  | JNull => Normal "null"
  | JBool b => Normal (if b then "true" else "false")
  | JNum t => Normal t
  | JStr s => Normal s
  | JHost t => Normal t
  | JArr xs =>
      let fix elems (xs : list jsval) : completion (list string) :=
        match xs with
        | [] => Normal []
        | JNull :: r => cbind (elems r) (fun ss => Normal ("" :: ss))
        | x :: r =>
            cbind (js_ToString x) (fun s => cbind (elems r) (fun ss => Normal (s :: ss)))
        end in
      cbind (elems xs) (fun ss => Normal (join "," ss))
  | JObj props =>
      match own_lookup props "toString" with
      | Some _ => Throw (TypeError "Cannot convert object to primitive value")
      | None => Normal "[object Object]"
      end
  end.

Section JSONFormatters.

Variable toLocaleString_ms : Z -> string.
(** [JSON.parse]: [None] when it throws a [SyntaxError]. *)
Variable JSON_parse : string -> option jsval.
(** The member [k] found on the prototype chain starting at a built-in
    prototype ([None] for [undefined]). *)
Variable proto_lookup : prototype -> string -> option jsval.
(** [String.prototype.toUpperCase]. *)
Variable toUpperCase : string -> string.

(** [jsonData[field]]: [None] stands for [undefined]. *)
Definition js_get (v : jsval) (k : string) : completion (option jsval) :=
  match v with
  | JNull => Throw (TypeError ("Cannot read properties of null (reading '" ++ k ++ "')"))
  | JObj props =>
      match own_lookup props k with
      | Some x => Normal (Some x)
      | None => Normal (proto_lookup ObjectPrototype k)
      end
  | JArr xs =>
      if String.eqb k "length" then Normal (Some (JNum (Z_to_string (Z.of_nat (length xs)))))
      else match array_index k with
           | Some i => Normal (match nth_error xs i with
                               | Some x => Some x
                               | None => proto_lookup ArrayPrototype k
                               end)
           | None => Normal (proto_lookup ArrayPrototype k)
           end
  | JStr s =>
      if String.eqb k "length" then Normal (Some (JNum (Z_to_string (Z.of_nat (String.length s)))))
      else match array_index k with
           | Some i => Normal (match String.get i s with
                               | Some c => Some (JStr (String c EmptyString))
                               | None => proto_lookup StringPrototype k
                               end)
           | None => Normal (proto_lookup StringPrototype k)
           end
  | JNum _ => Normal (proto_lookup NumberPrototype k)
  | JBool _ => Normal (proto_lookup BooleanPrototype k)
  | JHost _ => Normal None
  end.

(** [try { jsonData = JSON.parse(value) } catch (e) { jsonData = { raw: value } }]. *)
Definition parse_or_raw (value : string) : jsval :=
  match JSON_parse value with
  | Some j => j
  | None => JObj [("raw", JStr value)]
  end.

(** [jsonData[field] !== undefined ? jsonData[field] : ""], then [`${fieldVal}`]. *)
Definition field_value_text (jsonData : jsval) (field : string) : completion string :=
  cbind (js_get jsonData field) (fun found =>
    let fieldVal := match found with Some x => x | None => JStr "" end in
    js_ToString fieldVal).

(** [`- ${field}: ${fieldVal}`] (main.js, lines 323-328). *)
Definition markdown_field_line (jsonData : jsval) (field : string) : completion string :=
  cbind (field_value_text jsonData field) (fun s => Normal ("- " ++ field ++ ": " ++ s)).

Definition json_markdown_section (fields : list string) (e : event) : completion string :=
  let displayTime := formatTime toLocaleString_ms (time e) in
  let jsonData := parse_or_raw (value e) in
  cbind (cmap (markdown_field_line jsonData) fields) (fun lines =>
    Normal ("## " ++ displayTime ++ nl ++ nl ++ join nl lines ++ nl)).

(** [buildJSONMarkdownFormatter(fields)] (main.js, lines 307-336). *)
Definition buildJSONMarkdownFormatter (fields : list string) : formatter :=
  fun events timelineName =>
    let output := "# " ++ timelineName ++ nl ++ nl in
    cbind (cmap (json_markdown_section fields) events) (fun sections =>
      Normal (output ++ join markdown_divider sections)).

(** [`<li><strong>${field.toUpperCase()}:</strong> ${fieldVal}</li>`]
    (main.js, lines 364-369). *)
Definition html_field_item (jsonData : jsval) (field : string) : completion string :=
  cbind (field_value_text jsonData field) (fun s =>
    Normal ("<li><strong>" ++ toUpperCase field ++ ":</strong> " ++ s ++ "</li>")).

Definition json_html_section_text (displayTime items : string) : string :=
  "
                    <section class=" ++ dq ++ "event" ++ dq ++ ">
                        <h2>" ++ displayTime ++ "</h2>
                        <ul class=" ++ dq ++ "event-fields" ++ dq ++ ">
                            " ++ items ++ "
                        </ul>
                    </section>
                ".

Definition json_html_section (fields : list string) (e : event) : completion string :=
  let displayTime := formatTime toLocaleString_ms (time e) in
  let jsonData := parse_or_raw (value e) in
  cbind (cmap (html_field_item jsonData) fields) (fun items =>
    Normal (json_html_section_text displayTime (join "" items))).

Definition json_html_page (timelineName eventSections : string) : string :=
  "
            <!DOCTYPE html>
            <html lang=" ++ dq ++ "utf-8" ++ dq ++ ">
            <head>
                <meta charset=" ++ dq ++ "UTF-8" ++ dq ++ ">
                <style>
                    body {
                        font-family: Arial, sans-serif;
                        line-height: 1.6;
                        margin: 2cm;
                        color: #333;
                    }
                    h1 {
                        color: #222;
                        text-align: center;
                        margin-bottom: 1.5em;
                    }
                    h2 {
                        color: #333;
                        border-bottom: 1px solid #eee;
                        padding-bottom: 0.5em;
                        margin-top: 1.5em;
                    }
                    .event {
                        margin-bottom: 2em;
                    }
                    .event-fields {
                        margin: 1em 0;
                        list-style: disc;
                        padding-left: 2em;
                    }
                    hr {
                        border: none;
                        border-top: 1px solid #eee;
                        margin: 2em 0;
                    }
                </style>
                <title>" ++ timelineName ++ "</title>
            </head>
            <body>
                <h1>" ++ timelineName ++ "</h1>
                " ++ eventSections ++ "
            </body>
            </html>
        ".

(** [buildJSONHTMLFormatter(fields)] (main.js, lines 350-428). *)
Definition buildJSONHTMLFormatter (fields : list string) : formatter :=
  fun events timelineName =>
    cbind (cmap (json_html_section fields) events) (fun eventSections =>
      Normal (json_html_page timelineName (join html_divider eventSections))).

End JSONFormatters.

(** ** The record source and [gatherAllEvents] *)

(** One answer of [timeLine.nextString(callback)]: the callback receives an
    event, no event (end of the timeline), or an error. *)
Inductive fetch : Type :=
| FEvent (e : event)
| FEnd
| FErr (err : js_error).

(** The answers of the timeline to successive [nextString] calls; when the
    list is exhausted the timeline never calls back again. *)
Definition source : Type := list fetch.

(** [getNext] (main.js, lines 151-161), with the array [allEvents] it pushes
    to; the result is the settled promise and the number of [nextString]
    calls made. *)
Fixpoint getNext (src : source) (allEvents : list event) : promise (list event) * nat :=
  match src with
  | [] => (Pending, 1%nat)
  | FErr err :: _ => (Rejected err, 1%nat)
  | FEnd :: _ => (Fulfilled allEvents, 1%nat)
  | FEvent ev :: rest =>
      let (p, n) := getNext rest (allEvents ++ [ev]) in (p, S n)
  end.

(** [gatherAllEvents(timeLine)] (main.js, lines 147-165). *)
Definition gatherAllEvents (src : source) : promise (list event) * nat :=
  getNext src [].

(** ** The pipeline returned by [allEvents(timeLine, timeLineName)] *)

Definition bytes : Type := list Byte.byte.

(** The calls made by the [.then] callbacks of the pipeline. *)
Inductive call : Type :=
| CallMarkdownFormatter   (* the formatter of [toMarkDown] *)
| CallHTMLFormatter       (* the formatter of [toHTML] *)
| CallMarkdownWrap        (* [defaultHTMLFormatter] inside [toPDF], Markdown path *)
| CallHtmlToPDF.          (* [htmlToPDF] inside [toPDF] *)

(** The closure state of [allEvents] (main.js, lines 452-455) and the trace
    of the calls made by the callbacks registered so far. *)
Record pipeline : Type := mkPipeline {
  timeLineName : string;
  eventsPromise : promise (list event);
  markdownPromise : option (promise string);
  htmlPromise : option (promise string);
  pdfBufferPromise : option (promise bytes);
  calls : list call
}.

(** What [toBuffer] resolves to: a [Buffer] or the raw events array. *)
Inductive output : Type :=
| OBuffer (b : bytes)
| OEvents (events : list event).

(** The calls [cs] a callback on [p] makes: none unless [p] fulfils. *)
Definition on_fulfil {A} (p : promise A) (cs : list call) : list call :=
  if is_fulfilled p then cs else [].

(** A chained method call on the pipeline. *)
Inductive selection : Type :=
| SelMarkDown (f : option formatter)   (* [toMarkDown(formatter?)] *)
| SelHTML (f : option formatter)       (* [toHTML(formatter?)] *)
| SelPDF.                              (* [toPDF()] *)

Section Pipeline.

Variable toLocaleString_ms : Z -> string.
(** [htmlToPDF(html)]: puppeteer's rendering of the page. *)
Variable htmlToPDF : string -> promise bytes.

Definition default_markdown : formatter :=
  fun events name => Normal (defaultMarkdownFormatter toLocaleString_ms events name).

Definition default_html : formatter :=
  fun events name => Normal (defaultHTMLFormatter toLocaleString_ms events name).

(** [allEvents(timeLine, timeLineName)] (main.js, lines 451-458). *)
Definition allEvents (src : source) (name : string) : pipeline :=
  mkPipeline name (fst (gatherAllEvents src)) None None None [].

(** [toMarkDown(formatter = defaultMarkdownFormatter)] (lines 465-470). *)
Definition toMarkDown (fmt : option formatter) (st : pipeline) : pipeline :=
  match markdownPromise st with
  | Some _ => st
  | None =>
      let f := match fmt with Some f => f | None => default_markdown end in
      let ev := eventsPromise st in
      mkPipeline (timeLineName st) ev
        (Some (then_ ev (fun events => promise_of_completion (f events (timeLineName st)))))
        (htmlPromise st) (pdfBufferPromise st)
        (calls st ++ on_fulfil ev [CallMarkdownFormatter])
  end.

(** [toHTML(formatter = defaultHTMLFormatter)] (lines 476-481). *)
Definition toHTML (fmt : option formatter) (st : pipeline) : pipeline :=
  match htmlPromise st with
  | Some _ => st
  | None =>
      let f := match fmt with Some f => f | None => default_html end in
      let ev := eventsPromise st in
      mkPipeline (timeLineName st) ev (markdownPromise st)
        (Some (then_ ev (fun events => promise_of_completion (f events (timeLineName st)))))
        (pdfBufferPromise st)
        (calls st ++ on_fulfil ev [CallHTMLFormatter])
  end.

(** The callback of the Markdown path of [toPDF] (lines 498-504). *)
Definition markdown_to_pdf (name markdown : string) : promise bytes :=
  let html := defaultHTMLFormatter toLocaleString_ms
                [mkEvent "Markdown Content" (replace_newlines markdown)] name in
  htmlToPDF html.

(** [toPDF()] (lines 487-508). *)
Definition toPDF (st : pipeline) : pipeline :=
  let st1 := match htmlPromise st, markdownPromise st with
             | None, None => toHTML None st
             | _, _ => st
             end in
  match pdfBufferPromise st1 with
  | Some _ => st1
  | None =>
      match htmlPromise st1 with
      | Some hp =>
          mkPipeline (timeLineName st1) (eventsPromise st1) (markdownPromise st1)
            (htmlPromise st1) (Some (then_ hp htmlToPDF))
            (calls st1 ++ on_fulfil hp [CallHtmlToPDF])
      | None =>
          match markdownPromise st1 with
          | Some mp =>
              mkPipeline (timeLineName st1) (eventsPromise st1) (markdownPromise st1)
                (htmlPromise st1)
                (Some (then_ mp (markdown_to_pdf (timeLineName st1))))
                (calls st1 ++ on_fulfil mp [CallMarkdownWrap; CallHtmlToPDF])
          | None => st1
          end
      end
  end.

(** The promise [toBuffer()] returns (lines 517-530). *)
Definition toBuffer_result (st : pipeline) : promise output :=
  match pdfBufferPromise st with
  | Some p => then_ p (fun b => Fulfilled (OBuffer b))
  | None =>
      match htmlPromise st with
      | Some hp => then_ hp (fun html => Fulfilled (OBuffer (utf8_encode html)))
      | None =>
          match markdownPromise st with
          | Some mp => then_ mp (fun markdown => Fulfilled (OBuffer (utf8_encode markdown)))
          | None => then_ (eventsPromise st) (fun events => Fulfilled (OEvents events))
          end
      end
  end.

(** [toBuffer()] as a call on the pipeline: it reads the promises and
    registers no callback on the pipeline's state. *)
Definition toBuffer (st : pipeline) : pipeline * promise output :=
  (st, toBuffer_result st).

Definition select (st : pipeline) (s : selection) : pipeline :=
  match s with
  | SelMarkDown f => toMarkDown f st
  | SelHTML f => toHTML f st
  | SelPDF => toPDF st
  end.

(** [allEvents(timeLine, name).sel1().sel2()...]. *)
Definition run (src : source) (name : string) (sels : list selection) : pipeline :=
  fold_left select sels (allEvents src name).

End Pipeline.

(** ** Concrete host instances, used to evaluate examples *)

Open Scope Z_scope.

Definition pad2 (n : Z) : string :=
  if n <? 10 then "0" ++ Z_to_string n else Z_to_string n.

(** [Date.prototype.toLocaleString] for the en-US locale in the UTC time
    zone, with a plain space before AM/PM (ICU releases before 72), for the
    years 1..9999.  The calendar conversion is the proleptic Gregorian one
    (days since 1970-01-01 to year, month, day). *)
Definition en_US_UTC (ms : Z) : string :=
  let days := ms / 86400000 in
  let rem := ms mod 86400000 in
  let z := days + 719468 in
  let era := z / 146097 in
  let doe := z - era * 146097 in
  let yoe := (doe - doe / 1460 + doe / 36524 - doe / 146096) / 365 in
  let y := yoe + era * 400 in
  let doy := doe - (365 * yoe + yoe / 4 - yoe / 100) in
  let mp := (5 * doy + 2) / 153 in
  let d := doy - (153 * mp + 2) / 5 + 1 in
  let m := if mp <? 10 then mp + 3 else mp - 9 in
  let year := if m <=? 2 then y + 1 else y in
  let hours := rem / 3600000 in
  let minutes := (rem / 60000) mod 60 in
  let seconds := (rem / 1000) mod 60 in
  let h12 := if hours mod 12 =? 0 then 12 else hours mod 12 in
  Z_to_string m ++ "/" ++ Z_to_string d ++ "/" ++ Z_to_string year ++ ", " ++
  Z_to_string h12 ++ ":" ++ pad2 minutes ++ ":" ++ pad2 seconds ++ " " ++
  (if hours <? 12 then "AM" else "PM").

Open Scope string_scope.

(** A [JSON.parse] for the JSON texts whose numbers are integers of at most
    2^53 in magnitude and whose strings use no [\u] escape; on these texts it
    agrees with [JSON.parse], and it reports the other texts as unparseable. *)
Definition is_json_ws (c : ascii) : bool :=
  let n := nat_of_ascii c in
  Nat.eqb n 32 || Nat.eqb n 9 || Nat.eqb n 10 || Nat.eqb n 13.

Fixpoint strip_prefix (p l : list ascii) : option (list ascii) :=
  match p, l with
  | [], _ => Some l
  | c :: p', d :: l' => if Ascii.eqb c d then strip_prefix p' l' else None
  | _ :: _, [] => None
  end.

Definition starts_with_char (c : ascii) (l : list ascii) : option (list ascii) :=
  strip_prefix [c] l.

(** The body of a string literal after its opening quote. *)
Fixpoint json_string_body (l : list ascii) (acc : list ascii) : option (string * list ascii) :=
  match l with
  | [] => None
  | c :: r =>
      if Ascii.eqb c "034"%char then Some (string_of_list_ascii (rev acc), r)
      else if Ascii.eqb c "\" then
        match r with
        | e :: r' =>
            let unescaped :=
              if Ascii.eqb e "034"%char then Some "034"%char
              else if Ascii.eqb e "\" then Some "\"%char
              else if Ascii.eqb e "/" then Some "/"%char
              else if Ascii.eqb e "b" then Some "008"%char
              else if Ascii.eqb e "f" then Some "012"%char
              else if Ascii.eqb e "n" then Some "010"%char
              else if Ascii.eqb e "r" then Some "013"%char
              else if Ascii.eqb e "t" then Some "009"%char
              else None in
            match unescaped with
            | Some u => json_string_body r' (u :: acc)
            | None => None
            end
        | [] => None
        end
      else if Nat.ltb (nat_of_ascii c) 32 then None
      else json_string_body r (c :: acc)
  end.

Definition json_number (l : list ascii) : option (jsval * list ascii) :=
  let '(neg, l1) := match starts_with_char "-" l with
                    | Some r => (true, r) | None => (false, l) end in
  let (ds, rest) := span (is_digit_in 10) l1 in
  match ds with
  | [] => None
  | d :: dr =>
      if Ascii.eqb d "0" && negb (is_nil dr) then None
      else match rest with
           | c :: _ =>
               if Ascii.eqb c "." || Ascii.eqb c "e" || Ascii.eqb c "E" then None
               else if (digits_value 10 ds <=? 2 ^ 53)%Z
               then Some (JNum (Z_to_string (if neg then - digits_value 10 ds else digits_value 10 ds)%Z), rest)
               else None
           | [] =>
               if (digits_value 10 ds <=? 2 ^ 53)%Z
               then Some (JNum (Z_to_string (if neg then - digits_value 10 ds else digits_value 10 ds)%Z), rest)
               else None
           end
  end.

Fixpoint json_value (fuel : nat) (l : list ascii) : option (jsval * list ascii) :=
  match fuel with
  | O => None
  | S f =>
      let l := drop_while is_json_ws l in
      match strip_prefix (list_ascii_of_string "null") l with
      | Some r => Some (JNull, r)
      | None =>
      match strip_prefix (list_ascii_of_string "true") l with
      | Some r => Some (JBool true, r)
      | None =>
      match strip_prefix (list_ascii_of_string "false") l with
      | Some r => Some (JBool false, r)
      | None =>
      match starts_with_char "034"%char l with
      | Some r => option_map (fun sr => (JStr (fst sr), snd sr)) (json_string_body r [])
      | None =>
      match starts_with_char "[" l with
      | Some r =>
          let r := drop_while is_json_ws r in
          match starts_with_char "]" r with
          | Some r' => Some (JArr [], r')
          | None =>
              let fix elems (g : nat) (r : list ascii) (acc : list jsval) :=
                match g with
                | O => None
                | S g' =>
                    match json_value f r with
                    | None => None
                    | Some (v, r1) =>
                        let r1 := drop_while is_json_ws r1 in
                        match starts_with_char "," r1 with
                        | Some r2 => elems g' r2 (acc ++ [v])%list
                        | None =>
                            match starts_with_char "]" r1 with
                            | Some r2 => Some (JArr (acc ++ [v])%list, r2)
                            | None => None
                            end
                        end
                    end
                end in
              elems f r []
          end
      | None =>
      match starts_with_char "{" l with
      | Some r =>
          let r := drop_while is_json_ws r in
          match starts_with_char "}" r with
          | Some r' => Some (JObj [], r')
          | None =>
              let fix members (g : nat) (r : list ascii) (acc : list (string * jsval)) :=
                match g with
                | O => None
                | S g' =>
                    let r := drop_while is_json_ws r in
                    match starts_with_char "034"%char r with
                    | None => None
                    | Some r0 =>
                        match json_string_body r0 [] with
                        | None => None
                        | Some (k, r1) =>
                            match starts_with_char ":" (drop_while is_json_ws r1) with
                            | None => None
                            | Some r2 =>
                                match json_value f r2 with
                                | None => None
                                | Some (v, r3) =>
                                    let r3 := drop_while is_json_ws r3 in
                                    match starts_with_char "," r3 with
                                    | Some r4 => members g' r4 (acc ++ [(k, v)])%list
                                    | None =>
                                        match starts_with_char "}" r3 with
                                        | Some r4 => Some (JObj (acc ++ [(k, v)])%list, r4)
                                        | None => None
                                        end
                                    end
                                end
                            end
                        end
                    end
                end in
              members f r []
          end
      | None => json_number l
      end end end end end end
  end.

Definition json_parse_subset (text : string) : option jsval :=
  let l := list_ascii_of_string text in
  match json_value (S (length l)) l with
  | Some (v, rest) => if is_nil (drop_while is_json_ws rest) then Some v else None
  | None => None
  end.

(** The members of [Object.prototype] and their string conversions; the
    other prototypes are given only the members they inherit from it and
    their [constructor]. *)
Definition native_function (name : string) : jsval :=
  JHost ("function " ++ name ++ "() { [native code] }").

Definition object_prototype_member (k : string) : option jsval :=
  if String.eqb k "__proto__" then Some (JHost "[object Object]")
  else if existsb (String.eqb k)
    ["__defineGetter__"; "__defineSetter__"; "hasOwnProperty"; "__lookupGetter__";
     "__lookupSetter__"; "isPrototypeOf"; "propertyIsEnumerable"; "toString";
     "valueOf"; "toLocaleString"]
  then Some (native_function k)
  else None.

Definition node_proto_lookup (p : prototype) (k : string) : option jsval :=
  if String.eqb k "constructor" then
    Some (native_function (match p with
                           | ObjectPrototype => "Object"
                           | ArrayPrototype => "Array"
                           | StringPrototype => "String"
                           | NumberPrototype => "Number"
                           | BooleanPrototype => "Boolean"
                           end))
  else object_prototype_member k.

(** [String.prototype.toUpperCase] on ASCII letters and on the Latin-1
    letters whose capital is a Latin-1 letter. *)
Definition upper_char (c : ascii) : string :=
  let n := nat_of_ascii c in
  if (Nat.leb 97 n && Nat.leb n 122) || (Nat.leb 224 n && Nat.leb n 254 && negb (Nat.eqb n 247))
  then String (ascii_of_nat (n - 32)) EmptyString
  else if Nat.eqb n 223 then "SS"
  else String c EmptyString.

Fixpoint ascii_toUpperCase (s : string) : string :=
  match s with
  | EmptyString => EmptyString
  | String c r => upper_char c ++ ascii_toUpperCase r
  end.

(** ** Readings of the specification used in the statements below *)

(** A numeric millisecond timestamp as the specification reads it: an
    optional minus sign followed by one or more decimal digits. *)
Definition numeric_timestamp (s : string) : bool :=
  match list_ascii_of_string s with
  | [] => false
  | c :: r =>
      if Ascii.eqb c "-" then negb (is_nil r) && forallb (is_digit_in 10) r
      else forallb (is_digit_in 10) (c :: r)
  end.

(** The integer a numeric timestamp spells. *)
Definition timestamp_integer (s : string) : Z :=
  match list_ascii_of_string s with
  | [] => 0
  | c :: r => if Ascii.eqb c "-" then - digits_value 10 r else digits_value 10 (c :: r)
  end.

(** The formatter argument of the first [toHTML] (resp. [toMarkDown]) call
    of a selection sequence. *)
Fixpoint first_html (sels : list selection) : option (option formatter) :=
  match sels with
  | [] => None
  | SelHTML f :: _ => Some f
  | _ :: r => first_html r
  end.

Fixpoint first_markdown (sels : list selection) : option (option formatter) :=
  match sels with
  | [] => None
  | SelMarkDown f :: _ => Some f
  | _ :: r => first_markdown r
  end.

Definition is_pdf (s : selection) : bool :=
  match s with SelPDF => true | _ => false end.

(** Two calls request the same stage. *)
Definition same_stage (s s' : selection) : bool :=
  match s, s' with
  | SelMarkDown _, SelMarkDown _ | SelHTML _, SelHTML _ | SelPDF, SelPDF => true
  | _, _ => false
  end.

Definition call_eq_dec (c d : call) : {c = d} + {c <> d}.
Proof. decide equality. Defined.

Definition count_call (c : call) (l : list call) : nat := count_occ call_eq_dec l c.

(** The promise a text stage registers: [events.then(formatter)]. *)
Definition stage_promise (ev : promise (list event)) (f : formatter) (name : string)
  : promise string :=
  then_ ev (fun events => promise_of_completion (f events name)).

Definition resolve_formatter (fopt : option formatter) (dflt : formatter) : formatter :=
  match fopt with Some f => f | None => dflt end.

Definition registered {A} (o : option A) : bool :=
  match o with Some _ => true | None => false end.

(** A renderer standing in for puppeteer in examples: the bytes of the page. *)
Definition sample_htmlToPDF (html : string) : promise bytes :=
  Fulfilled (utf8_encode html).

(** Whether a string contains a line feed. *)
Fixpoint contains_newline (s : string) : bool :=
  match s with
  | EmptyString => false
  | String c r => Ascii.eqb c "010"%char || contains_newline r
  end.


(** ** Other code of [main.js] *)

(** [processNextString()] (main.js, lines 775-782): for each event,
    [console.log] is called with the two arguments [event.time] and
    [event.value], and the next one is requested; an error or the end stops
    it.  The result is the argument pairs of the [console.log] calls, in
    order, and the number of [nextString] calls. *)
Fixpoint processNextString (src : source) : list (string * string) * nat :=
  match src with
  | [] => ([], 1%nat)
  | FEvent ev :: rest =>
      let (log, n) := processNextString rest in ((time ev, value ev) :: log, S n)
  | FEnd :: _ | FErr _ :: _ => ([], 1%nat)
  end.

(** The first revision of the library (main.js, lines 1-136): Markdown and a
    PDF rendered by [markdown-pdf]. *)
Module Rev1.

(** A formatter of [toMarkDown(formatter)]: called with the events only. *)
Definition formatter : Type := list event -> completion string.

(** [eventsToMarkdown] (lines 41-45). *)
Definition eventsToMarkdown (events : list event) : string :=
  join markdown_divider
    (map (fun e => "## Event at " ++ time e ++ nl ++ nl ++ value e ++ nl) events).

Inductive call : Type :=
| CallMarkdownFormatter   (* the formatter of [toMarkDown] *)
| CallMarkdownToPDF.      (* [markdownToPDF] inside [toPDF] *)

Definition on_fulfil {A} (p : promise A) (cs : list call) : list call :=
  if is_fulfilled p then cs else [].

(** The closure state of [allEvents(timeLine)] (lines 83-88). *)
Record pipeline : Type := mkPipeline {
  eventsPromise : promise (list event);
  markdownPromise : option (promise string);
  pdfBufferPromise : option (promise bytes);
  calls : list call
}.

Inductive selection : Type :=
| SelMarkDown (f : option formatter)   (* [toMarkDown(formatter?)] *)
| SelPDF.                              (* [toPDF()] *)

Section Pipeline.

(** [markdownToPDF(markdown)] (lines 54-63): the rendering by [markdown-pdf]. *)
Variable markdownToPDF : string -> promise bytes.

Definition default_markdown : formatter := fun events => Normal (eventsToMarkdown events).

(** [allEvents(timeLine)] (lines 82-88). *)
Definition allEvents (src : source) : pipeline :=
  mkPipeline (fst (gatherAllEvents src)) None None [].

(** [toMarkDown(formatter = eventsToMarkdown)] (lines 95-100). *)
Definition toMarkDown (fmt : option formatter) (st : pipeline) : pipeline :=
  match markdownPromise st with
  | Some _ => st
  | None =>
      let f := match fmt with Some f => f | None => default_markdown end in
      let ev := eventsPromise st in
      mkPipeline ev (Some (then_ ev (fun events => promise_of_completion (f events))))
        (pdfBufferPromise st) (calls st ++ on_fulfil ev [CallMarkdownFormatter])
  end.

(** [toPDF()] (lines 106-114).  After [this.toMarkDown()] the Markdown stage
    is always registered, so the last branch is never taken. *)
Definition toPDF (st : pipeline) : pipeline :=
  let st1 := match markdownPromise st with None => toMarkDown None st | Some _ => st end in
  match pdfBufferPromise st1 with
  | Some _ => st1
  | None =>
      match markdownPromise st1 with
      | Some mp =>
          mkPipeline (eventsPromise st1) (markdownPromise st1)
            (Some (then_ mp markdownToPDF))
            (calls st1 ++ on_fulfil mp [CallMarkdownToPDF])
      | None => st1
      end
  end.

(** The promise [toBuffer()] returns (lines 123-131). *)
Definition toBuffer_result (st : pipeline) : promise output :=
  match pdfBufferPromise st with
  | Some p => then_ p (fun b => Fulfilled (OBuffer b))
  | None =>
      match markdownPromise st with
      | Some mp => then_ mp (fun markdown => Fulfilled (OBuffer (utf8_encode markdown)))
      | None => then_ (eventsPromise st) (fun events => Fulfilled (OEvents events))
      end
  end.

Definition select (st : pipeline) (s : selection) : pipeline :=
  match s with
  | SelMarkDown f => toMarkDown f st
  | SelPDF => toPDF st
  end.

Definition run (src : source) (sels : list selection) : pipeline :=
  fold_left select sels (allEvents src).

End Pipeline.

(** The formatter that produces the Markdown: the one of the first call. *)
Definition first_formatter (s : selection) : formatter :=
  match s with
  | SelMarkDown (Some f) => f
  | _ => default_markdown
  end.

Definition is_pdf (s : selection) : bool :=
  match s with SelPDF => true | _ => false end.

End Rev1.

(** The third revision of the library (main.js, lines 533-764): the formatters
    take the events only, and the pages carry no timeline name. *)
Module Rev3.

Definition formatter : Type := list event -> completion string.

(** [eventsToMarkdown] (lines 569-573). *)
Definition eventsToMarkdown (events : list event) : string :=
  join markdown_divider
    (map (fun e => "## Event at " ++ time e ++ nl ++ nl ++ value e ++ nl) events).

(** The section built for one event by [eventsToHTML] (lines 584-590). *)
Definition html_section (e : event) : string :=
  "
            <section class=" ++ dq ++ "event" ++ dq ++ ">
                <h2>Event at " ++ time e ++ "</h2>
                <div class=" ++ dq ++ "event-content" ++ dq ++ ">
                    " ++ value e ++ "
                </div>
            </section>
        ".

(** [eventsToHTML] (lines 582-630). *)
Definition eventsToHTML (events : list event) : string :=
  let eventsSections := join html_divider (map html_section events) in
  "
        <!DOCTYPE html>
        <html>
        <head>
            <meta charset=" ++ dq ++ "UTF-8" ++ dq ++ ">
            <style>
                body {
                    font-family: Arial, sans-serif;
                    line-height: 1.6;
                    margin: 2cm;
                    color: #333;
                }
                h2 {
                    color: #333;
                    border-bottom: 1px solid #eee;
                    padding-bottom: 0.5em;
                    margin-top: 1.5em;
                }
                .event {
                    margin-bottom: 2em;
                }
                .event-content {
                    margin: 1em 0;
                }
                hr {
                    border: none;
                    border-top: 1px solid #eee;
                    margin: 2em 0;
                }
            </style>
        </head>
        <body>
            " ++ eventsSections ++ "
        </body>
        </html>
    ".

(** The closure state of [allEvents(timeLine)] (lines 682-686). *)
Record pipeline : Type := mkPipeline {
  eventsPromise : promise (list event);
  markdownPromise : option (promise string);
  htmlPromise : option (promise string);
  pdfBufferPromise : option (promise bytes);
  calls : list call
}.

Inductive selection : Type :=
| SelMarkDown (f : option formatter)   (* [toMarkDown(formatter?)] *)
| SelHTML (f : option formatter)       (* [toHTML(formatter?)] *)
| SelPDF.                              (* [toPDF()] *)

Section Pipeline.

(** [htmlToPDF(html)] (lines 638-659): puppeteer's rendering of the page. *)
Variable htmlToPDF : string -> promise bytes.

Definition default_markdown : formatter := fun events => Normal (eventsToMarkdown events).
Definition default_html : formatter := fun events => Normal (eventsToHTML events).

(** [allEvents(timeLine)] (lines 681-688). *)
Definition allEvents (src : source) : pipeline :=
  mkPipeline (fst (gatherAllEvents src)) None None None [].

(** [toMarkDown(formatter = eventsToMarkdown)] (lines 695-700). *)
Definition toMarkDown (fmt : option formatter) (st : pipeline) : pipeline :=
  match markdownPromise st with
  | Some _ => st
  | None =>
      let f := match fmt with Some f => f | None => default_markdown end in
      let ev := eventsPromise st in
      mkPipeline ev (Some (then_ ev (fun events => promise_of_completion (f events))))
        (htmlPromise st) (pdfBufferPromise st)
        (calls st ++ on_fulfil ev [CallMarkdownFormatter])
  end.

(** [toHTML(formatter = eventsToHTML)] (lines 706-711). *)
Definition toHTML (fmt : option formatter) (st : pipeline) : pipeline :=
  match htmlPromise st with
  | Some _ => st
  | None =>
      let f := match fmt with Some f => f | None => default_html end in
      let ev := eventsPromise st in
      mkPipeline ev (markdownPromise st)
        (Some (then_ ev (fun events => promise_of_completion (f events))))
        (pdfBufferPromise st)
        (calls st ++ on_fulfil ev [CallHTMLFormatter])
  end.

(** The callback of the Markdown path of [toPDF] (lines 728-734). *)
Definition markdown_to_pdf (markdown : string) : promise bytes :=
  htmlToPDF (eventsToHTML [mkEvent "Markdown Content" (replace_newlines markdown)]).

(** [toPDF()] (lines 717-738). *)
Definition toPDF (st : pipeline) : pipeline :=
  let st1 := match htmlPromise st, markdownPromise st with
             | None, None => toHTML None st
             | _, _ => st
             end in
  match pdfBufferPromise st1 with
  | Some _ => st1
  | None =>
      match htmlPromise st1 with
      | Some hp =>
          mkPipeline (eventsPromise st1) (markdownPromise st1) (htmlPromise st1)
            (Some (then_ hp htmlToPDF)) (calls st1 ++ on_fulfil hp [CallHtmlToPDF])
      | None =>
          match markdownPromise st1 with
          | Some mp =>
              mkPipeline (eventsPromise st1) (markdownPromise st1) (htmlPromise st1)
                (Some (then_ mp markdown_to_pdf))
                (calls st1 ++ on_fulfil mp [CallMarkdownWrap; CallHtmlToPDF])
          | None => st1
          end
      end
  end.

(** The promise [toBuffer()] returns (lines 747-760). *)
Definition toBuffer_result (st : pipeline) : promise output :=
  match pdfBufferPromise st with
  | Some p => then_ p (fun b => Fulfilled (OBuffer b))
  | None =>
      match htmlPromise st with
      | Some hp => then_ hp (fun html => Fulfilled (OBuffer (utf8_encode html)))
      | None =>
          match markdownPromise st with
          | Some mp => then_ mp (fun markdown => Fulfilled (OBuffer (utf8_encode markdown)))
          | None => then_ (eventsPromise st) (fun events => Fulfilled (OEvents events))
          end
      end
  end.

Definition select (st : pipeline) (s : selection) : pipeline :=
  match s with
  | SelMarkDown f => toMarkDown f st
  | SelHTML f => toHTML f st
  | SelPDF => toPDF st
  end.

Definition run (src : source) (sels : list selection) : pipeline :=
  fold_left select sels (allEvents src).

End Pipeline.

End Rev3.

(** A stage that is not registered, or registered on a promise that never
    settles. *)
Definition pending_opt {A} (o : option (promise A)) : Prop :=
  match o with None => True | Some p => p = Pending end.

(** The state of a pipeline whose timeline never answers. *)
Definition all_pending (st : pipeline) : Prop :=
  eventsPromise st = Pending /\
  pending_opt (markdownPromise st) /\
  pending_opt (htmlPromise st) /\
  pending_opt (pdfBufferPromise st) /\
  calls st = [].

(** The state of a pipeline whose HTML formatter threw [err]. *)
Definition html_rejected (err : js_error) (st : pipeline) : Prop :=
  htmlPromise st = Some (Rejected err) /\
  match pdfBufferPromise st with None => True | Some p => p = Rejected err end /\
  count_call CallHtmlToPDF (calls st) = 0%nat.

(** The code points of a string outside ASCII. *)
Definition non_ascii_count (s : string) : nat :=
  length (filter (fun c => negb (N_of_ascii c <? 128)%N) (list_ascii_of_string s)).

(** The exception a completion carries, if any. *)
Definition error_of {A} (c : completion A) : option js_error :=
  match c with Normal _ => None | Throw e => Some e end.

(** ** Facts about the pipeline *)

Section PipelineFacts.

Variable L : Z -> string.
Variable render : string -> promise bytes.

Lemma select_eventsPromise (st : pipeline) (s : selection) :
  eventsPromise (select L render st s) = eventsPromise st /\
  timeLineName (select L render st s) = timeLineName st.
Proof.
  destruct s as [f|f|]; simpl.
  - unfold toMarkDown; destruct (markdownPromise st); simpl; auto.
  - unfold toHTML; destruct (htmlPromise st); simpl; auto.
  - unfold toPDF, toHTML.
    destruct (htmlPromise st) eqn:Hh, (markdownPromise st) eqn:Hm; simpl;
      rewrite ?Hh, ?Hm; simpl;
      repeat match goal with
             | |- context [match ?x with _ => _ end] => destruct x; simpl
             end; auto.
Qed.

Lemma fold_select_eventsPromise (sels : list selection) (st : pipeline) :
  eventsPromise (fold_left (select L render) sels st) = eventsPromise st /\
  timeLineName (fold_left (select L render) sels st) = timeLineName st.
Proof.
  revert st; induction sels as [|s r IH]; intros st; simpl; auto.
  destruct (IH (select L render st s)) as [H1 H2].
  destruct (select_eventsPromise st s) as [H3 H4].
  split; congruence.
Qed.

Lemma run_eventsPromise (src : source) (name : string) (sels : list selection) :
  eventsPromise (run L render src name sels) = fst (gatherAllEvents src) /\
  timeLineName (run L render src name sels) = name.
Proof. apply fold_select_eventsPromise. Qed.

Lemma getNext_events (evs : list event) (rest : source) (acc : list event) :
  getNext (map FEvent evs ++ FEnd :: rest)%list acc = (Fulfilled (acc ++ evs)%list, S (length evs)).
Proof.
  revert acc; induction evs as [|e evs IH]; intros acc; simpl.
  - rewrite app_nil_r; reflexivity.
  - rewrite IH, <- app_assoc; reflexivity.
Qed.

Lemma getNext_error (evs : list event) (err : js_error) (rest : source) (acc : list event) :
  getNext (map FEvent evs ++ FErr err :: rest)%list acc = (Rejected err, S (length evs)).
Proof.
  revert acc; induction evs as [|e evs IH]; intros acc; simpl; [reflexivity|].
  rewrite IH; reflexivity.
Qed.

Definition rejected_opt {A} (err : js_error) (o : option (promise A)) : Prop :=
  match o with None => True | Some p => p = Rejected err end.

(** On a rejected record sequence every registered stage is rejected with
    the same error and no callback has run. *)
Definition all_rejected (err : js_error) (st : pipeline) : Prop :=
  eventsPromise st = Rejected err /\
  rejected_opt err (markdownPromise st) /\
  rejected_opt err (htmlPromise st) /\
  rejected_opt err (pdfBufferPromise st) /\
  calls st = [].

Lemma select_all_rejected (err : js_error) (st : pipeline) (s : selection) :
  all_rejected err st -> all_rejected err (select L render st s).
Proof.
  destruct st as [nm ev md ht pdf cs].
  intros (Hev & Hmd & Hht & Hpdf & Hc); simpl in *; subst ev cs.
  unfold all_rejected.
  destruct s as [f|f|]; simpl; unfold toMarkDown, toPDF, toHTML; simpl.
  - destruct md; simpl; auto.
  - destruct ht; simpl; auto.
  - destruct ht as [h|], md as [m|]; simpl in *; subst.
    + destruct pdf; simpl; auto.
    + destruct pdf; simpl; auto.
    + destruct pdf; simpl; auto.
    + destruct pdf; simpl; auto.
Qed.

Lemma fold_select_all_rejected (err : js_error) (sels : list selection) (st : pipeline) :
  all_rejected err st -> all_rejected err (fold_left (select L render) sels st).
Proof.
  revert st; induction sels as [|s r IH]; intros st H; simpl; auto.
  apply IH, select_all_rejected, H.
Qed.

(** The invariant of the reachable pipelines: a document stage sits on a
    text stage, and each callback has run at most once, only for a
    registered stage. *)
Definition wf (st : pipeline) : Prop :=
  (registered (pdfBufferPromise st) = true ->
   registered (htmlPromise st) = true \/ registered (markdownPromise st) = true) /\
  (count_call CallMarkdownFormatter (calls st) <= if registered (markdownPromise st) then 1 else 0)%nat /\
  (count_call CallHTMLFormatter (calls st) <= if registered (htmlPromise st) then 1 else 0)%nat /\
  (count_call CallMarkdownWrap (calls st) <= if registered (pdfBufferPromise st) then 1 else 0)%nat /\
  (count_call CallHtmlToPDF (calls st) <= if registered (pdfBufferPromise st) then 1 else 0)%nat.

Lemma count_call_app (c : call) (l1 l2 : list call) :
  count_call c (l1 ++ l2) = (count_call c l1 + count_call c l2)%nat.
Proof. unfold count_call; apply count_occ_app. Qed.

Lemma count_on_fulfil {A} (c : call) (p : promise A) (cs : list call) :
  (count_call c (on_fulfil p cs) <= count_call c cs)%nat.
Proof. unfold on_fulfil; destruct (is_fulfilled p); simpl; lia. Qed.

Ltac wf_counts :=
  repeat rewrite count_call_app;
  repeat match goal with
         | |- context [count_call ?c (on_fulfil ?p ?cs)] =>
             let H := fresh in
             pose proof (count_on_fulfil c p cs) as H;
             generalize dependent (count_call c (on_fulfil p cs)); intros
         end;
  unfold count_call in *; simpl in *; lia.

Lemma initial_wf (src : source) (name : string) : wf (allEvents src name).
Proof. unfold wf; simpl; repeat split; try lia; discriminate. Qed.

Lemma select_wf (st : pipeline) (s : selection) : wf st -> wf (select L render st s).
Proof.
  destruct st as [nm ev md ht pdf cs].
  unfold wf; simpl; intros (Hinv & Hmd & Hht & Hwr & Hre).
  destruct s as [f|f|]; simpl; unfold toMarkDown, toPDF, toHTML; simpl.
  - destruct md; simpl in *; [repeat split; auto|].
    repeat split; auto; wf_counts.
  - destruct ht; simpl in *; [repeat split; auto|].
    repeat split; auto; wf_counts.
  - destruct ht as [h|], md as [m|], pdf as [q|]; simpl in *;
      repeat split; auto; wf_counts.
Qed.

Lemma run_wf (src : source) (name : string) (sels : list selection) :
  wf (run L render src name sels).
Proof.
  unfold run.
  assert (H : forall st, wf st -> wf (fold_left (select L render) sels st)).
  { induction sels as [|s r IH]; intros st Hst; simpl; auto.
    apply IH, select_wf, Hst. }
  apply H, initial_wf.
Qed.

(** Registration is never undone. *)
Lemma select_registered (st : pipeline) (s : selection) :
  (registered (markdownPromise st) = true -> registered (markdownPromise (select L render st s)) = true) /\
  (registered (htmlPromise st) = true -> registered (htmlPromise (select L render st s)) = true) /\
  (registered (pdfBufferPromise st) = true -> registered (pdfBufferPromise (select L render st s)) = true).
Proof.
  destruct st as [nm ev md ht pdf cs].
  destruct s as [f|f|]; simpl; unfold toMarkDown, toPDF, toHTML; simpl;
    destruct ht, md, pdf; simpl; auto.
Qed.

(** After a call the stage it requests is registered. *)
Lemma select_registers (st : pipeline) (s : selection) :
  (forall f, s = SelMarkDown f -> registered (markdownPromise (select L render st s)) = true) /\
  (forall f, s = SelHTML f -> registered (htmlPromise (select L render st s)) = true) /\
  (s = SelPDF -> registered (pdfBufferPromise (select L render st s)) = true).
Proof.
  destruct st as [nm ev md ht pdf cs].
  repeat split; intros; subst; simpl; unfold toMarkDown, toPDF, toHTML; simpl;
    destruct ht, md; simpl; auto; destruct pdf; simpl; auto.
Qed.

Lemma fold_registered (sels : list selection) (st : pipeline) :
  (registered (markdownPromise st) = true ->
   registered (markdownPromise (fold_left (select L render) sels st)) = true) /\
  (registered (htmlPromise st) = true ->
   registered (htmlPromise (fold_left (select L render) sels st)) = true) /\
  (registered (pdfBufferPromise st) = true ->
   registered (pdfBufferPromise (fold_left (select L render) sels st)) = true).
Proof.
  revert st; induction sels as [|s r IH]; intros st; simpl; [auto|].
  destruct (select_registered st s) as (H1 & H2 & H3).
  destruct (IH (select L render st s)) as (H4 & H5 & H6).
  auto.
Qed.

Lemma requested_registered (sels : list selection) (st : pipeline) (s : selection) :
  In s sels ->
  (forall f, s = SelMarkDown f ->
   registered (markdownPromise (fold_left (select L render) sels st)) = true) /\
  (forall f, s = SelHTML f ->
   registered (htmlPromise (fold_left (select L render) sels st)) = true) /\
  (s = SelPDF -> registered (pdfBufferPromise (fold_left (select L render) sels st)) = true).
Proof.
  revert st; induction sels as [|x r IH]; intros st Hin; [destruct Hin|].
  simpl. destruct Hin as [->|Hin]; [|apply IH; auto].
  destruct (select_registers st s) as (R1 & R2 & R3).
  destruct (fold_registered r (select L render st s)) as (F1 & F2 & F3).
  repeat split; intros; eauto.
Qed.

(** On a well formed pipeline a call for a registered stage changes nothing. *)
Lemma select_registered_noop (st : pipeline) (s : selection) :
  wf st ->
  match s with
  | SelMarkDown _ => registered (markdownPromise st) = true
  | SelHTML _ => registered (htmlPromise st) = true
  | SelPDF => registered (pdfBufferPromise st) = true
  end ->
  select L render st s = st.
Proof.
  destruct st as [nm ev md ht pdf cs].
  unfold wf; simpl; intros (Hinv & _).
  destruct s as [f|f|]; simpl; unfold toMarkDown, toPDF, toHTML; simpl; intros Hreg.
  - destruct md; [reflexivity|discriminate].
  - destruct ht; [reflexivity|discriminate].
  - destruct pdf; [|discriminate].
    destruct (Hinv eq_refl) as [Hh|Hm]; destruct ht, md; simpl in *; try discriminate; reflexivity.
Qed.

End PipelineFacts.

Section PipelineClaims.

Variable L : Z -> string.
Variable render : string -> promise bytes.

Lemma fold_no_pdf (sels : list selection) (st : pipeline) :
  existsb is_pdf sels = false -> pdfBufferPromise st = None ->
  pdfBufferPromise (fold_left (select L render) sels st) = None /\
  htmlPromise (fold_left (select L render) sels st) =
    match htmlPromise st with
    | Some p => Some p
    | None => option_map (fun f => stage_promise (eventsPromise st)
                                     (resolve_formatter f (default_html L)) (timeLineName st))
                         (first_html sels)
    end /\
  markdownPromise (fold_left (select L render) sels st) =
    match markdownPromise st with
    | Some p => Some p
    | None => option_map (fun f => stage_promise (eventsPromise st)
                                     (resolve_formatter f (default_markdown L)) (timeLineName st))
                         (first_markdown sels)
    end.
Proof.
  revert st; induction sels as [|s r IH]; intros st Hno Hpdf; simpl in *.
  - destruct (htmlPromise st), (markdownPromise st); auto.
  - apply orb_false_iff in Hno as [Hs Hr].
    destruct st as [nm ev md ht pdf cs]; simpl in *; subst pdf.
    destruct s as [f|f|]; simpl in Hs; try discriminate; simpl.
    + unfold toMarkDown; simpl.
      destruct md as [m|];
        match goal with
        | |- context [fold_left (select L render) r ?st0] =>
            destruct (IH st0 Hr eq_refl) as (A & B & C)
        end; simpl in *; rewrite A, B, C; auto.
    + unfold toHTML; simpl.
      destruct ht as [h|];
        match goal with
        | |- context [fold_left (select L render) r ?st0] =>
            destruct (IH st0 Hr eq_refl) as (A & B & C)
        end; simpl in *; rewrite A, B, C; auto.
Qed.

(** C1: [toBuffer] picks its result by strict precedence over the calls
    made before it: a requested PDF gives the document bytes; otherwise a
    requested HTML stage gives the UTF-8 bytes of the markup (even when
    [toMarkDown] was requested too); otherwise a requested Markdown stage
    gives the UTF-8 bytes of the text; otherwise the raw events. *)
Theorem toBuffer_precedence (src : source) (name : string) (sels : list selection) :
  let st := run L render src name sels in
  let ev := fst (gatherAllEvents src) in
  (existsb is_pdf sels = true ->
   exists p, pdfBufferPromise st = Some p /\
             toBuffer_result st = then_ p (fun b => Fulfilled (OBuffer b))) /\
  (existsb is_pdf sels = false -> forall f, first_html sels = Some f ->
   toBuffer_result st =
     then_ (stage_promise ev (resolve_formatter f (default_html L)) name)
           (fun html => Fulfilled (OBuffer (utf8_encode html)))) /\
  (existsb is_pdf sels = false -> first_html sels = None ->
   forall f, first_markdown sels = Some f ->
   toBuffer_result st =
     then_ (stage_promise ev (resolve_formatter f (default_markdown L)) name)
           (fun markdown => Fulfilled (OBuffer (utf8_encode markdown)))) /\
  (existsb is_pdf sels = false -> first_html sels = None -> first_markdown sels = None ->
   toBuffer_result st = then_ ev (fun events => Fulfilled (OEvents events))).
Proof.
  intros st ev.
  assert (Hno : existsb is_pdf sels = false ->
    pdfBufferPromise st = None /\
    htmlPromise st = option_map (fun f => stage_promise ev (resolve_formatter f (default_html L)) name)
                                (first_html sels) /\
    markdownPromise st = option_map (fun f => stage_promise ev (resolve_formatter f (default_markdown L)) name)
                                    (first_markdown sels)).
  { intros H; apply (fold_no_pdf sels (allEvents src name) H eq_refl). }
  repeat split.
  - intros Hpdf.
    apply existsb_exists in Hpdf as [s [Hin Hs]].
    destruct s; try discriminate.
    destruct (requested_registered L render sels (allEvents src name) SelPDF Hin)
      as (_ & _ & Hreg).
    specialize (Hreg eq_refl); fold (run L render src name sels) in Hreg; fold st in Hreg.
    unfold toBuffer_result.
    destruct (pdfBufferPromise st) as [p|]; [|discriminate].
    exists p; auto.
  - intros Hpdf f Hf; destruct (Hno Hpdf) as (A & B & _).
    unfold toBuffer_result; rewrite A, B, Hf; reflexivity.
  - intros Hpdf Hh f Hf; destruct (Hno Hpdf) as (A & B & C).
    unfold toBuffer_result; rewrite A, B, C, Hh, Hf; reflexivity.
  - intros Hpdf Hh Hm; destruct (Hno Hpdf) as (A & B & C).
    unfold toBuffer_result; rewrite A, B, C, Hh, Hm; simpl.
    destruct (run_eventsPromise L render src name sels) as [E _].
    fold st in E; rewrite E; reflexivity.
Qed.

(** C2: with no formatter supplied, [toPDF()] alone builds the same pipeline,
    hence the same document, as [toHTML().toPDF()]: the document is rendered
    from the default HTML of the events.  On any pipeline with no text stage,
    [toPDF()] behaves as [toHTML()] followed by [toPDF()]. *)
Theorem toPDF_default_substitution (src : source) (name : string) :
  run L render src name [SelPDF] = run L render src name [SelHTML None; SelPDF] /\
  toBuffer_result (run L render src name [SelPDF]) =
    then_ (fst (gatherAllEvents src))
          (fun events => then_ (render (defaultHTMLFormatter L events name))
                               (fun b => Fulfilled (OBuffer b))) /\
  (forall st, htmlPromise st = None -> markdownPromise st = None ->
   toPDF L render st = toPDF L render (toHTML L None st)).
Proof.
  split; [|split].
  - reflexivity.
  - unfold run, allEvents; destruct (gatherAllEvents src) as [p n].
    simpl; unfold toPDF, toHTML; simpl; destruct p; reflexivity.
  - intros [nm ev md ht pdf cs]; simpl; intros -> ->.
    unfold toPDF, toHTML; simpl; reflexivity.
Qed.

(** C3: calling [toBuffer()] twice gives the same result, registers nothing,
    and over the whole life of any pipeline each formatter and the renderer
    has been called at most once per stage. *)
Theorem toBuffer_twice (src : source) (name : string) (sels : list selection) :
  let st := run L render src name sels in
  let st1 := fst (toBuffer st) in
  let st2 := fst (toBuffer st1) in
  snd (toBuffer st1) = snd (toBuffer st) /\ st2 = st /\
  (forall c, count_call c (calls st2) <= 1)%nat.
Proof.
  intros st st1 st2; simpl in *.
  split; [reflexivity|split; [reflexivity|]].
  destruct (run_wf L render src name sels) as (_ & H1 & H2 & H3 & H4).
  fold st in H1, H2, H3, H4.
  intros c; unfold st2, st1; simpl.
  destruct c;
    [ revert H1 | revert H2 | revert H3 | revert H4 ];
    match goal with |- context [if ?b then _ else _] => destruct b end; lia.
Qed.

(** C4: once a stage has been requested, every later request for the same
    stage, whatever its formatter, leaves the pipeline unchanged. *)
Theorem repeated_selection_noop (src : source) (name : string) (sels : list selection)
    (s s' : selection) :
  In s sels -> same_stage s s' = true ->
  select L render (run L render src name sels) s' = run L render src name sels /\
  run L render src name (sels ++ [s'])%list = run L render src name sels.
Proof.
  intros Hin Hsame.
  assert (H : select L render (run L render src name sels) s' = run L render src name sels).
  { apply select_registered_noop; [apply run_wf|].
    destruct (requested_registered L render sels (allEvents src name) s Hin)
      as (R1 & R2 & R3).
    destruct s, s'; simpl in Hsame; try discriminate; eauto. }
  split; [exact H|].
  unfold run; rewrite fold_left_app; exact H.
Qed.

(** C5: when a [nextString] call fails, the record sequence is rejected with
    that error after exactly the calls up to the failing one; every stage
    registered afterwards is rejected with the same error, no formatter or
    renderer is called, and [toBuffer()] rejects with that error. *)
Theorem fetch_failure_propagates (evs : list event) (err : js_error) (rest : source)
    (name : string) (sels : list selection) :
  let src := (map FEvent evs ++ FErr err :: rest)%list in
  gatherAllEvents src = (Rejected err, S (length evs)) /\
  all_rejected err (run L render src name sels) /\
  toBuffer_result (run L render src name sels) = Rejected err.
Proof.
  intros src.
  assert (G : gatherAllEvents src = (Rejected err, S (length evs))) by apply getNext_error.
  assert (A : all_rejected err (run L render src name sels)).
  { apply fold_select_all_rejected.
    unfold all_rejected, allEvents; simpl; rewrite G; simpl; repeat split. }
  split; [exact G|split; [exact A|]].
  destruct (run L render src name sels) as [nm ev md ht pdf cs].
  destruct A as (Hev & Hmd & Hht & Hpdf & _); simpl in *.
  unfold toBuffer_result; simpl.
  destruct pdf; simpl in *; subst; [reflexivity|].
  destruct ht; simpl in *; subst; [reflexivity|].
  destruct md; simpl in *; subst; reflexivity.
Qed.

(** C8: when the timeline yields [r1..rn] and then no event, a pipeline with
    no selection resolves to exactly [r1..rn], in order. *)
Theorem no_selection_raw_events (evs : list event) (rest : source) (name : string) :
  let src := (map FEvent evs ++ FEnd :: rest)%list in
  gatherAllEvents src = (Fulfilled evs, S (length evs)) /\
  toBuffer_result (run L render src name []) = Fulfilled (OEvents evs).
Proof.
  intros src.
  assert (G : gatherAllEvents src = (Fulfilled evs, S (length evs))) by apply getNext_events.
  split; [exact G|].
  unfold run, allEvents, toBuffer_result; simpl; rewrite G; reflexivity.
Qed.

End PipelineClaims.

(** ** Facts about the formatters *)

Lemma replace_newlines_app (a b : string) :
  replace_newlines (a ++ b) = replace_newlines a ++ replace_newlines b.
Proof.
  induction a as [|c a IH]; simpl; [reflexivity|].
  destruct (Ascii.eqb c "010"%char); simpl; rewrite IH; [reflexivity|reflexivity].
Qed.

Lemma contains_newline_app (a b : string) :
  contains_newline (a ++ b) = contains_newline a || contains_newline b.
Proof.
  induction a as [|c a IH]; simpl; [reflexivity|].
  rewrite IH, orb_assoc; reflexivity.
Qed.

Lemma replace_newlines_clean (s : string) : contains_newline (replace_newlines s) = false.
Proof.
  induction s as [|c s IH]; simpl; [reflexivity|].
  destruct (Ascii.eqb c "010"%char) eqn:E; simpl.
  - exact IH.
  - rewrite E, IH; reflexivity.
Qed.

Lemma replace_newlines_id (s : string) : contains_newline s = false -> replace_newlines s = s.
Proof.
  induction s as [|c s IH]; simpl; [reflexivity|].
  intros H; apply orb_false_iff in H as [H1 H2]; rewrite H1, IH; auto.
Qed.

Section FormatterClaims.

Variable L : Z -> string.
Variable render : string -> promise bytes.

(** C7: when only [toMarkDown] has been requested, [toPDF()] renders the
    Markdown wrapped as a page of [defaultHTMLFormatter] with exactly one
    section, titled ["Markdown Content"], whose body is the Markdown with every
    line feed replaced by [<br>]; no HTML stage is registered. *)
Theorem markdown_only_pdf (st : pipeline) (mp : promise string) :
  markdownPromise st = Some mp -> htmlPromise st = None -> pdfBufferPromise st = None ->
  pdfBufferPromise (toPDF L render st) =
    Some (then_ mp (fun markdown =>
            render (html_page (timeLineName st)
                      (html_section "Markdown Content" (replace_newlines markdown))))) /\
  htmlPromise (toPDF L render st) = None /\
  (forall a b, replace_newlines (a ++ nl ++ b) =
               replace_newlines a ++ "<br>" ++ replace_newlines b) /\
  (forall s, contains_newline (replace_newlines s) = false) /\
  (forall s, contains_newline s = false -> replace_newlines s = s).
Proof.
  destruct st as [nm ev md ht pdf cs]; simpl; intros -> -> ->.
  split; [|split; [|split; [|split]]].
  - unfold toPDF; simpl; reflexivity.
  - unfold toPDF; simpl; reflexivity.
  - intros a b; rewrite !replace_newlines_app; reflexivity.
  - apply replace_newlines_clean.
  - apply replace_newlines_id.
Qed.

End FormatterClaims.

(** C9 (divergence from [formatTime]'s documentation): a timestamp that is
    not numeric is not always returned as it is.  The empty timestamp is
    titled with the epoch date, since [Number("")] is 0, and the timestamp
    ["Infinity"] is titled ["Invalid Date"], not ["Infinity"]. *)
Lemma default_formatter_title_counterexample :
  numeric_timestamp "" = false /\
  formatTime en_US_UTC "" = "1/1/1970, 12:00:00 AM" /\
  numeric_timestamp "Infinity" = false /\
  formatTime en_US_UTC "Infinity" = "Invalid Date" /\
  defaultMarkdownFormatter en_US_UTC [mkEvent "" "a"; mkEvent "Infinity" "b"] "tl" =
    "# tl" ++ nl ++ nl ++ "## 1/1/1970, 12:00:00 AM" ++ nl ++ nl ++ "a" ++ nl ++
    markdown_divider ++ "## Invalid Date" ++ nl ++ nl ++ "b" ++ nl.
Proof. repeat split; vm_compute; reflexivity. Qed.

(** ** Facts about the field-projecting formatters *)




Section JSONFacts.

Variable proto : prototype -> string -> option jsval.


End JSONFacts.

Section JSONClaims.

Variable L : Z -> string.
Variable parse : string -> option jsval.
Variable proto : prototype -> string -> option jsval.
Variable up : string -> string.

(** C10: when a record's value parses to an object whose own field [f] is
    [null], both field-projecting formatters render the text [null] as the
    value of [f]; the empty value is substituted only when the lookup of the
    field yields [undefined], any other value being rendered by its string
    conversion. *)
Theorem null_field_rendered (v : string) (props : list (string * jsval)) (f : string) :
  parse v = Some (JObj props) -> own_lookup props f = Some JNull ->
  markdown_field_line proto (parse_or_raw parse v) f = Normal ("- " ++ f ++ ": null") /\
  html_field_item proto up (parse_or_raw parse v) f =
    Normal ("<li><strong>" ++ up f ++ ":</strong> null</li>") /\
  (forall jsonData g, js_get proto jsonData g = Normal None ->
     field_value_text proto jsonData g = Normal "") /\
  (forall jsonData g x, js_get proto jsonData g = Normal (Some x) ->
     field_value_text proto jsonData g = js_ToString x).
Proof.
  intros Hp Hf.
  assert (Ht : field_value_text proto (parse_or_raw parse v) f = Normal "null")
    by (unfold field_value_text, parse_or_raw; rewrite Hp; simpl; rewrite Hf; reflexivity).
  split; [unfold markdown_field_line; rewrite Ht; reflexivity|].
  split; [unfold html_field_item; rewrite Ht; reflexivity|].
  split; intros jsonData g; [|intros x]; intros H; unfold field_value_text; rewrite H;
    reflexivity.
Qed.



End JSONClaims.

(** ** Instances of the theorems with hypotheses *)

Lemma repeated_selection_noop_witness :
  In (SelMarkDown None) [SelMarkDown None] /\
  same_stage (SelMarkDown None) (SelMarkDown (Some (fun _ _ => Normal "x"))) = true /\
  run en_US_UTC sample_htmlToPDF [FEvent (mkEvent "0" "a"); FEnd] "tl"
      ([SelMarkDown None] ++ [SelMarkDown (Some (fun _ _ => Normal "x"))])%list =
    run en_US_UTC sample_htmlToPDF [FEvent (mkEvent "0" "a"); FEnd] "tl" [SelMarkDown None].
Proof.
  assert (H1 : In (SelMarkDown None) [SelMarkDown None]) by (simpl; left; reflexivity).
  assert (H2 : same_stage (SelMarkDown None) (SelMarkDown (Some (fun _ _ => Normal "x")))
               = true) by reflexivity.
  split; [exact H1|split; [exact H2|]].
  destruct (repeated_selection_noop en_US_UTC sample_htmlToPDF
              [FEvent (mkEvent "0" "a"); FEnd] "tl" [SelMarkDown None]
              (SelMarkDown None) (SelMarkDown (Some (fun _ _ => Normal "x"))) H1 H2)
    as [_ H].
  exact H.
Defined.

Lemma markdown_only_pdf_witness :
  markdownPromise (run en_US_UTC sample_htmlToPDF [FEvent (mkEvent "0" "a"); FEnd] "tl"
                     [SelMarkDown None]) =
    Some (Fulfilled ("# tl" ++ nl ++ nl ++ "## 1/1/1970, 12:00:00 AM" ++ nl ++ nl ++
                     "a" ++ nl)) /\
  pdfBufferPromise (toPDF en_US_UTC sample_htmlToPDF
                      (run en_US_UTC sample_htmlToPDF [FEvent (mkEvent "0" "a"); FEnd] "tl"
                         [SelMarkDown None])) =
    Some (Fulfilled (utf8_encode
      (html_page "tl" (html_section "Markdown Content"
         ("# tl<br><br>## 1/1/1970, 12:00:00 AM<br><br>a<br>"))))).
Proof.
  assert (H1 : markdownPromise (run en_US_UTC sample_htmlToPDF
                 [FEvent (mkEvent "0" "a"); FEnd] "tl" [SelMarkDown None]) =
    Some (Fulfilled ("# tl" ++ nl ++ nl ++ "## 1/1/1970, 12:00:00 AM" ++ nl ++ nl ++
                     "a" ++ nl))) by (vm_compute; reflexivity).
  assert (H2 : htmlPromise (run en_US_UTC sample_htmlToPDF
                 [FEvent (mkEvent "0" "a"); FEnd] "tl" [SelMarkDown None]) = None)
    by reflexivity.
  assert (H3 : pdfBufferPromise (run en_US_UTC sample_htmlToPDF
                 [FEvent (mkEvent "0" "a"); FEnd] "tl" [SelMarkDown None]) = None)
    by reflexivity.
  split; [exact H1|].
  destruct (markdown_only_pdf en_US_UTC sample_htmlToPDF _ _ H1 H2 H3) as [H _].
  rewrite H; vm_compute; reflexivity.
Defined.

Lemma null_field_rendered_witness :
  json_parse_subset ("{" ++ dq ++ "title" ++ dq ++ ":null}") =
    Some (JObj [("title", JNull)]) /\
  markdown_field_line node_proto_lookup
    (parse_or_raw json_parse_subset ("{" ++ dq ++ "title" ++ dq ++ ":null}")) "title" =
    Normal "- title: null" /\
  html_field_item node_proto_lookup ascii_toUpperCase
    (parse_or_raw json_parse_subset ("{" ++ dq ++ "title" ++ dq ++ ":null}")) "title" =
    Normal "<li><strong>TITLE:</strong> null</li>".
Proof.
  assert (HP : json_parse_subset ("{" ++ dq ++ "title" ++ dq ++ ":null}") =
               Some (JObj [("title", JNull)])) by (vm_compute; reflexivity).
  assert (HL : own_lookup [("title", JNull)] "title" = Some JNull) by reflexivity.
  destruct (null_field_rendered json_parse_subset node_proto_lookup ascii_toUpperCase
              _ _ "title" HP HL) as (H1 & H2 & _).
  split; [exact HP|split; [exact H1|]].
  rewrite H2; reflexivity.
Defined.


(** ** Further properties of the pipeline of [allEvents(timeLine, timeLineName)] *)

Section PipelineExtras.

Variable L : Z -> string.
Variable render : string -> promise bytes.

Lemma select_keeps_pdf (st : pipeline) (s : selection) (p : promise bytes) :
  pdfBufferPromise st = Some p -> pdfBufferPromise (select L render st s) = Some p.
Proof.
  destruct st as [nm ev md ht pdf cs]; simpl; intros ->.
  destruct s as [f|f|]; simpl; unfold toMarkDown, toHTML, toPDF; simpl.
  - destruct md; reflexivity.
  - destruct ht; reflexivity.
  - destruct ht, md; reflexivity.
Qed.

Lemma fold_keeps_pdf (sels : list selection) (st : pipeline) (p : promise bytes) :
  pdfBufferPromise st = Some p ->
  pdfBufferPromise (fold_left (select L render) sels st) = Some p.
Proof.
  revert st; induction sels as [|s r IH]; simpl; intros st H; [exact H|].
  apply IH, select_keeps_pdf, H.
Qed.

Lemma toPDF_registers (st : pipeline) :
  exists p, pdfBufferPromise (toPDF L render st) = Some p.
Proof.
  destruct st as [nm ev md ht pdf cs]; unfold toPDF, toHTML; simpl.
  destruct ht as [h|], md as [m|], pdf as [q|]; simpl; eexists; reflexivity.
Qed.

(** Once [toPDF()] has been called, no later call of [toMarkDown], [toHTML] or
    [toPDF] changes what [toBuffer()] resolves to: the document is fixed by
    the stages registered when [toPDF()] was first called. *)
Theorem pdf_fixed_after_toPDF (src : source) (name : string) (sels1 sels2 : list selection) :
  toBuffer_result (run L render src name (sels1 ++ SelPDF :: sels2)%list) =
  toBuffer_result (run L render src name (sels1 ++ [SelPDF])%list).
Proof.
  unfold run; rewrite !fold_left_app; simpl.
  destruct (toPDF_registers (fold_left (select L render) sels1 (allEvents src name)))
    as [p Hp].
  unfold toBuffer_result.
  rewrite (fold_keeps_pdf sels2 _ p Hp), Hp; reflexivity.
Qed.

Lemma select_html_rejected (err : js_error) (st : pipeline) (s : selection) :
  html_rejected err st -> html_rejected err (select L render st s).
Proof.
  destruct st as [nm ev md ht pdf cs].
  intros (Hht & Hpdf & Hc); simpl in *; subst ht.
  unfold html_rejected; destruct s as [f|f|]; simpl; unfold toMarkDown, toHTML, toPDF; simpl.
  - destruct md; simpl; [auto|].
    split; [reflexivity|split; [exact Hpdf|]].
    rewrite count_call_app, Hc; unfold on_fulfil; destruct (is_fulfilled ev); reflexivity.
  - auto.
  - destruct md, pdf; simpl; auto; rewrite count_call_app, Hc; auto.
Qed.

(** When the timeline's events arrive and the formatter given to [toHTML]
    throws on them, [toBuffer()] rejects with that exception whatever is
    chained after [toHTML]: no PDF is rendered ([htmlToPDF] is never called),
    and the HTML stage is not replaced by a later [toHTML]. *)
Theorem html_formatter_throw_rejects (src : source) (name : string) (evs : list event)
    (f : formatter) (err : js_error) (sels : list selection) :
  fst (gatherAllEvents src) = Fulfilled evs -> f evs name = Throw err ->
  toBuffer_result (run L render src name (SelHTML (Some f) :: sels)) = Rejected err /\
  count_call CallHtmlToPDF (calls (run L render src name (SelHTML (Some f) :: sels))) = 0%nat.
Proof.
  intros Hev Hf.
  assert (H0 : html_rejected err (toHTML L (Some f) (allEvents src name))).
  { unfold html_rejected, toHTML, allEvents; simpl; rewrite Hev; simpl; rewrite Hf.
    split; [reflexivity|split; [exact I|reflexivity]]. }
  assert (Hinv : forall sels st, html_rejected err st ->
                  html_rejected err (fold_left (select L render) sels st)).
  { induction sels0 as [|s r IH]; simpl; intros st H; [exact H|].
    apply IH, select_html_rejected, H. }
  unfold run; simpl.
  destruct (Hinv sels _ H0) as (Hht & Hpdf & Hc).
  split; [|exact Hc].
  unfold toBuffer_result.
  destruct (pdfBufferPromise _) as [p|]; [rewrite Hpdf; reflexivity|].
  rewrite Hht; reflexivity.
Qed.

Lemma select_all_pending (st : pipeline) (s : selection) :
  all_pending st -> all_pending (select L render st s).
Proof.
  destruct st as [nm ev md ht pdf cs].
  intros (Hev & Hmd & Hht & Hpdf & Hc); simpl in *; subst ev cs.
  unfold all_pending.
  destruct s as [f|f|]; simpl; unfold toMarkDown, toPDF, toHTML; simpl.
  - destruct md; simpl; auto.
  - destruct ht; simpl; auto.
  - destruct ht as [h|], md as [m|]; simpl in *; subst.
    + destruct pdf; simpl; auto.
    + destruct pdf; simpl; auto.
    + destruct pdf; simpl; auto.
    + destruct pdf; simpl; auto.
Qed.

(** A timeline that answers some [nextString] calls with events and then never
    calls back leaves every stage pending: [toBuffer()] never settles and no
    formatter nor renderer is ever called, whatever the chained calls. *)
Theorem silent_source_pending (evs : list event) (name : string) (sels : list selection) :
  gatherAllEvents (map FEvent evs) = (Pending, S (length evs)) /\
  toBuffer_result (run L render (map FEvent evs) name sels) = Pending /\
  calls (run L render (map FEvent evs) name sels) = [].
Proof.
  assert (Hg : forall acc, getNext (map FEvent evs) acc = (Pending, S (length evs))).
  { induction evs as [|e r IH]; simpl; intros acc; [reflexivity|rewrite IH; reflexivity]. }
  assert (Hinv : forall sels st, all_pending st ->
                  all_pending (fold_left (select L render) sels st)).
  { induction sels0 as [|s r IH]; simpl; intros st H; [exact H|].
    apply IH, select_all_pending, H. }
  split; [unfold gatherAllEvents; apply Hg|].
  assert (H0 : all_pending (allEvents (map FEvent evs) name)).
  { unfold all_pending, allEvents, gatherAllEvents; rewrite Hg; simpl; auto. }
  unfold run.
  destruct (fold_left (select L render) sels (allEvents (map FEvent evs) name))
    as [nm ev md ht pdf cs] eqn:E.
  pose proof (Hinv sels _ H0) as Hp; rewrite E in Hp.
  destruct Hp as (Hev & Hmd & Hht & Hpdf & Hc); simpl in *.
  split; [|exact Hc].
  unfold toBuffer_result; simpl.
  destruct pdf as [q|]; [simpl in Hpdf; subst q; reflexivity|].
  destruct ht as [h|]; [simpl in Hht; subst h; reflexivity|].
  destruct md as [m|]; [simpl in Hmd; subst m; reflexivity|].
  subst ev; reflexivity.
Qed.

End PipelineExtras.

Section PipelineExtras2.

Variable L : Z -> string.
Variable render : string -> promise bytes.

(** [allEvents(timeLine, name).toHTML(formatter).toPDF().toBuffer()], the chain
    of tests/render-file.js: once the events arrive, the formatter runs
    exactly once, on them, and before anything else; if it returns a page,
    [htmlToPDF] is called exactly once on it and [toBuffer()] resolves to the
    rendered document; if it throws, [toBuffer()] rejects with its exception
    and nothing is rendered.  Until the events arrive nothing runs. *)
Theorem html_then_pdf_result (src : source) (name : string) (f : formatter) :
  toBuffer_result (run L render src name [SelHTML (Some f); SelPDF]) =
    then_ (fst (gatherAllEvents src)) (fun events =>
      match f events name with
      | Normal html => then_ (render html) (fun b => Fulfilled (OBuffer b))
      | Throw e => Rejected e
      end) /\
  count_call CallHtmlToPDF (calls (run L render src name [SelHTML (Some f); SelPDF])) =
    match fst (gatherAllEvents src) with
    | Fulfilled events => match f events name with Normal _ => 1%nat | Throw _ => 0%nat end
    | _ => 0%nat
    end /\
  count_call CallHTMLFormatter (calls (run L render src name [SelHTML (Some f); SelPDF])) =
    match fst (gatherAllEvents src) with Fulfilled _ => 1%nat | _ => 0%nat end /\
  calls (run L render src name [SelHTML (Some f); SelPDF]) =
    match fst (gatherAllEvents src) with
    | Fulfilled events =>
        CallHTMLFormatter ::
          match f events name with Normal _ => [CallHtmlToPDF] | Throw _ => [] end
    | _ => []
    end.
Proof.
  unfold run, allEvents; simpl; unfold toHTML, toPDF, toBuffer_result; simpl.
  destruct (fst (gatherAllEvents src)) as [|evs|e]; simpl;
    [repeat split; reflexivity| |repeat split; reflexivity].
  destruct (f evs name) as [h|e]; simpl.
  - split; [destruct (render h); reflexivity|repeat split; reflexivity].
  - repeat split; reflexivity.
Qed.

End PipelineExtras2.

(** ** Further properties of the formatters *)

Lemma str_app_assoc (a b c : string) : (a ++ b) ++ c = a ++ (b ++ c).
Proof. induction a as [|x a IH]; simpl; [reflexivity|rewrite IH; reflexivity]. Qed.

Lemma join_cons_cons (sep x : string) (l : list string) :
  l <> [] -> join sep (x :: l) = x ++ sep ++ join sep l.
Proof. destruct l; [contradiction|reflexivity]. Qed.

Lemma join_app (sep : string) (l1 l2 : list string) :
  l1 <> [] -> l2 <> [] -> join sep (l1 ++ l2) = join sep l1 ++ sep ++ join sep l2.
Proof.
  intros H1 H2; induction l1 as [|x r IH]; [contradiction|].
  destruct r as [|y r].
  - simpl; apply join_cons_cons; exact H2.
  - change ((x :: y :: r) ++ l2)%list with (x :: ((y :: r) ++ l2))%list.
    rewrite join_cons_cons by (simpl; discriminate).
    rewrite IH by discriminate.
    rewrite (join_cons_cons sep x (y :: r)) by discriminate.
    rewrite !str_app_assoc; reflexivity.
Qed.

Section FormatterExtras.

Variable L : Z -> string.

(** The default formatters render a concatenation of two non-empty event
    sequences as the rendering of the first one, the divider, and the
    sections of the second one: each event's section depends on that event
    alone. *)
Theorem default_formatters_app (e1 e2 : event) (r1 r2 : list event) (name : string) :
  defaultMarkdownFormatter L ((e1 :: r1) ++ (e2 :: r2))%list name =
    defaultMarkdownFormatter L (e1 :: r1) name ++ markdown_divider ++
    join markdown_divider (map (markdown_section L) (e2 :: r2)) /\
  defaultHTMLFormatter L ((e1 :: r1) ++ (e2 :: r2))%list name =
    html_page name (join html_divider (map (html_event_section L) (e1 :: r1)) ++
                    html_divider ++
                    join html_divider (map (html_event_section L) (e2 :: r2))).
Proof.
  unfold defaultMarkdownFormatter, defaultHTMLFormatter; rewrite !map_app.
  rewrite !join_app by (simpl; discriminate).
  split; [rewrite !str_app_assoc; reflexivity|reflexivity].
Qed.

End FormatterExtras.

Lemma cmap_error_of {A B C} (f : A -> completion B) (g : A -> completion C) (l : list A) :
  (forall x, In x l -> error_of (f x) = error_of (g x)) ->
  error_of (cmap f l) = error_of (cmap g l).
Proof.
  induction l as [|x r IH]; simpl; intros H; [reflexivity|].
  specialize (H x (or_introl eq_refl)) as Hx.
  destruct (f x) as [y|e], (g x) as [z|e']; simpl in Hx; try discriminate.
  - assert (IH' : error_of (cmap f r) = error_of (cmap g r))
      by (apply IH; intros; apply H; right; assumption).
    simpl; destruct (cmap f r), (cmap g r); simpl in *; congruence.
  - simpl; congruence.
Qed.

Lemma cmap_app_throw {A B} (f : A -> completion B) (pre post : list A) (x : A) (err : js_error) :
  Forall (fun y => error_of (f y) = None) pre -> f x = Throw err ->
  cmap f (pre ++ x :: post)%list = Throw err.
Proof.
  intros Hpre Hx; induction Hpre as [|y pre Hy Hpre IH]; simpl.
  - rewrite Hx; reflexivity.
  - destruct (f y); [simpl; rewrite IH; reflexivity|discriminate].
Qed.

Section JSONExtras.

Variable L : Z -> string.
Variable parse : string -> option jsval.
Variable proto : prototype -> string -> option jsval.
Variable up : string -> string.

Lemma section_error_of (fields : list string) (e : event) :
  error_of (json_markdown_section L parse proto fields e) =
  error_of (json_html_section L parse proto up fields e).
Proof.
  unfold json_markdown_section, json_html_section.
  assert (H : error_of (cmap (markdown_field_line proto (parse_or_raw parse (value e))) fields)
            = error_of (cmap (html_field_item proto up (parse_or_raw parse (value e))) fields)).
  { apply cmap_error_of; intros g _; unfold markdown_field_line, html_field_item.
    destruct (field_value_text proto (parse_or_raw parse (value e)) g); reflexivity. }
  destruct (cmap (markdown_field_line proto _) fields),
           (cmap (html_field_item proto up _) fields); simpl in *; congruence.
Qed.

(** The Markdown and the HTML field-projecting formatters fail on exactly the
    same inputs, with the same exception: for any fields, events and name,
    one returns normally if and only if the other does. *)
Theorem json_formatters_same_errors (fields : list string) (events : list event)
    (name : string) :
  error_of (buildJSONMarkdownFormatter L parse proto fields events name) =
  error_of (buildJSONHTMLFormatter L parse proto up fields events name).
Proof.
  unfold buildJSONMarkdownFormatter, buildJSONHTMLFormatter.
  assert (H : error_of (cmap (json_markdown_section L parse proto fields) events) =
              error_of (cmap (json_html_section L parse proto up fields) events)).
  { apply cmap_error_of; intros e _; apply section_error_of. }
  destruct (cmap (json_markdown_section L parse proto fields) events),
           (cmap (json_html_section L parse proto up fields) events); simpl in *; congruence.
Qed.

(** When at least one field is requested, a record whose value parses to
    [null] and whose earlier records all render without throwing makes both
    field-projecting formatters throw a [TypeError] for reading the first
    requested field of [null], whatever the later records are; no output is
    produced for any record. *)
Theorem json_formatters_null_record (f : string) (rest : list string)
    (pre post : list event) (e : event) (name : string) :
  Forall (fun e' => error_of (json_markdown_section L parse proto (f :: rest) e') = None) pre ->
  parse (value e) = Some JNull ->
  buildJSONMarkdownFormatter L parse proto (f :: rest) (pre ++ e :: post)%list name =
    Throw (TypeError ("Cannot read properties of null (reading '" ++ f ++ "')")) /\
  buildJSONHTMLFormatter L parse proto up (f :: rest) (pre ++ e :: post)%list name =
    Throw (TypeError ("Cannot read properties of null (reading '" ++ f ++ "')")).
Proof.
  intros Hpre He.
  split.
  - unfold buildJSONMarkdownFormatter;
    rewrite (cmap_app_throw _ pre post e
               (TypeError ("Cannot read properties of null (reading '" ++ f ++ "')")) Hpre).
    + reflexivity.
    + unfold json_markdown_section, parse_or_raw; rewrite He; reflexivity.
  - unfold buildJSONHTMLFormatter;
    rewrite (cmap_app_throw _ pre post e
               (TypeError ("Cannot read properties of null (reading '" ++ f ++ "')"))).
    + reflexivity.
    + eapply Forall_impl; [|exact Hpre]; intros e' H; rewrite <- section_error_of; exact H.
    + unfold json_html_section, parse_or_raw; rewrite He; reflexivity.
Qed.

End JSONExtras.

(** ** [processNextString] *)

Lemma getNext_count (src : source) (acc : list event) :
  snd (getNext src acc) = snd (processNextString src).
Proof.
  revert acc; induction src as [|[ev| |err] rest IH]; intros acc; simpl; try reflexivity.
  specialize (IH (acc ++ [ev])%list).
  destruct (getNext rest (acc ++ [ev])%list) as [p n];
    destruct (processNextString rest) as [log m]; simpl in *; congruence.
Qed.

(** [processNextString()] calls [console.log] with the arguments
    [(event.time, event.value)] once per event, in order, until the timeline
    answers with an error or the end, or stops answering; an error is
    silently dropped.  On every timeline it makes as many [nextString] calls
    as [gatherAllEvents]. *)
Theorem processNextString_log (evs : list event) (rest : source) (err : js_error) :
  let args := map (fun e => (time e, value e)) evs in
  processNextString (map FEvent evs ++ FEnd :: rest)%list = (args, S (length evs)) /\
  processNextString (map FEvent evs ++ FErr err :: rest)%list = (args, S (length evs)) /\
  processNextString (map FEvent evs) = (args, S (length evs)) /\
  (forall src, snd (gatherAllEvents src) = snd (processNextString src)).
Proof.
  intros args; subst args.
  assert (H : forall x, (x = FEnd \/ x = FErr err) ->
            processNextString (map FEvent evs ++ x :: rest)%list =
              (map (fun e => (time e, value e)) evs, S (length evs))).
  { intros x Hx; induction evs as [|e r IH]; simpl.
    - destruct Hx as [-> | ->]; reflexivity.
    - rewrite IH; reflexivity. }
  split; [apply (H FEnd); left; reflexivity|].
  split; [apply (H (FErr err)); right; reflexivity|].
  split.
  - clear H; induction evs as [|e r IH]; simpl; [reflexivity|rewrite IH; reflexivity].
  - intros src; apply getNext_count.
Qed.

(** ** Integer timestamps *)

Open Scope Z_scope.

Lemma digit_char_facts (c : ascii) :
  is_digit_in 10 c = true ->
  is_js_whitespace c = false /\ Ascii.eqb c "+" = false /\ Ascii.eqb c "-" = false /\
  c <> "I"%char /\ (Ascii.eqb c "b" || Ascii.eqb c "B") = false /\
  (Ascii.eqb c "o" || Ascii.eqb c "O") = false /\
  (Ascii.eqb c "x" || Ascii.eqb c "X") = false.
Proof.
  destruct c as [[] [] [] [] [] [] [] []]; vm_compute;
    intros H; first [discriminate H | repeat split; discriminate].
Qed.

Lemma drop_while_stop (p : ascii -> bool) (c : ascii) (r : list ascii) :
  p c = false -> drop_while p (c :: r) = c :: r.
Proof. simpl; intros ->; reflexivity. Qed.

Lemma trim_id (c : ascii) (r : list ascii) :
  is_js_whitespace c = false -> is_js_whitespace (last (c :: r) c) = false ->
  trim (c :: r) = c :: r.
Proof.
  intros H1 H2; unfold trim; rewrite (drop_while_stop _ _ _ H1).
  destruct (exists_last (l := c :: r) ltac:(discriminate)) as [l' [a Ha]].
  rewrite Ha in H2 |- *; rewrite last_last in H2.
  rewrite rev_app_distr; simpl; rewrite H2; simpl; rewrite rev_involutive; reflexivity.
Qed.

Lemma last_digit (c : ascii) (r : list ascii) :
  forallb (is_digit_in 10) (c :: r) = true -> is_digit_in 10 (last (c :: r) c) = true.
Proof.
  intros H; rewrite forallb_forall in H; apply H.
  destruct (exists_last (l := c :: r) ltac:(discriminate)) as [l' [a Ha]].
  rewrite Ha, last_last; apply in_or_app; right; left; reflexivity.
Qed.

Lemma last_default (d : ascii) (r : list ascii) (x y : ascii) :
  last (d :: r) x = last (d :: r) y.
Proof.
  revert d; induction r as [|e r IH]; intros d; [reflexivity|].
  change (last (e :: r) x = last (e :: r) y); apply IH.
Qed.

Lemma span_all (p : ascii -> bool) (l : list ascii) :
  forallb p l = true -> span p l = (l, []).
Proof.
  induction l as [|c r IH]; simpl; [reflexivity|].
  intros H; apply andb_true_iff in H as [H1 H2]; rewrite H1, IH; auto.
Qed.

Lemma parse_unsigned_digits (neg : bool) (c : ascii) (r : list ascii) :
  forallb (is_digit_in 10) (c :: r) = true ->
  parse_unsigned_decimal neg (c :: r) = Some (LitDecimal neg (digits_value 10 (c :: r)) 0).
Proof.
  intros H; unfold parse_unsigned_decimal.
  assert (Hc : is_digit_in 10 c = true) by (simpl in H; apply andb_true_iff in H; tauto).
  destruct (digit_char_facts c Hc) as (_ & _ & _ & HI & _).
  destruct (list_eq_dec Ascii.ascii_dec (c :: r) (list_ascii_of_string "Infinity")) as [E|_].
  - simpl in E; injection E; intros; contradiction.
  - rewrite (span_all _ _ H); reflexivity.
Qed.

Lemma non_decimal_digits (c : ascii) (r : list ascii) :
  forallb (is_digit_in 10) (c :: r) = true -> parse_non_decimal (c :: r) = None.
Proof.
  intros H; destruct r as [|x r]; [reflexivity|].
  assert (Hx : is_digit_in 10 x = true)
    by (simpl in H; rewrite !andb_true_iff in H; tauto).
  destruct (digit_char_facts x Hx) as (_ & _ & _ & _ & Hb & Ho & Hx').
  unfold parse_non_decimal; rewrite Hb, Ho, Hx'; simpl.
  destruct (Ascii.eqb c "0"); reflexivity.
Qed.

Lemma digit_value_nonneg (c : ascii) : 0 <= digit_value c.
Proof.
  destruct c as [[] [] [] [] [] [] [] []]; vm_compute; discriminate.
Qed.

Lemma fold_left_nonneg_digits (l : list ascii) (acc : Z) :
  0 <= acc -> 0 <= fold_left (fun acc c => acc * 10 + digit_value c) l acc.
Proof.
  revert acc; induction l as [|c r IH]; simpl; intros acc H; [exact H|].
  apply IH; pose proof (digit_value_nonneg c); lia.
Qed.

Lemma StringToNumber_numeric (t : string) :
  numeric_timestamp t = true ->
  exists neg m, 0 <= m /\ StringToNumber t = number_of_literal (LitDecimal neg m 0) /\
    timestamp_integer t = (if neg then - m else m).
Proof.
  unfold numeric_timestamp, StringToNumber, timestamp_integer.
  destruct (list_ascii_of_string t) as [|c r]; [discriminate|].
  destruct (Ascii.eqb c "-") eqn:Ec.
  - apply Ascii.eqb_eq in Ec; subst c.
    intros H; apply andb_true_iff in H as [Hne H].
    destruct r as [|d r]; [discriminate|].
    rewrite trim_id; [| reflexivity |].
    2:{ change (last ("-"%char :: d :: r) "-"%char) with (last (d :: r) "-"%char).
        rewrite (last_default d r "-"%char d).
        apply (digit_char_facts _ (last_digit _ _ H)). }
    simpl parse_non_decimal; cbv iota beta.
    change (Ascii.eqb "-" "+") with false; change (Ascii.eqb "-" "-") with true; cbv iota.
    rewrite (parse_unsigned_digits true d r H).
    exists true, (digits_value 10 (d :: r)); split; [|split; reflexivity].
    unfold digits_value; apply fold_left_nonneg_digits; lia.
  - intros H.
    assert (Hc : is_digit_in 10 c = true) by (simpl in H; apply andb_true_iff in H; tauto).
    destruct (digit_char_facts c Hc) as (Hw & Hp & _).
    rewrite trim_id by (assumption || apply (digit_char_facts _ (last_digit _ _ H))).
    rewrite (non_decimal_digits c r H), Hp, Ec, (parse_unsigned_digits false c r H).
    exists false, (digits_value 10 (c :: r)); split; [|split; reflexivity].
    unfold digits_value; apply fold_left_nonneg_digits; lia.
Qed.

Lemma round_half_even_exact (a b : Z) :
  0 < b -> a mod b = 0 -> round_half_even a b = a / b.
Proof.
  intros Hb Hm; unfold round_half_even; rewrite Hm.
  replace (Z.compare (2 * 0) b) with Lt by (symmetry; apply Z.compare_lt_iff; lia).
  reflexivity.
Qed.

Lemma round_half_even_lower (a b c : Z) :
  0 < b -> c * b <= a -> c <= round_half_even a b.
Proof.
  intros Hb Hc.
  assert (Hq : c <= a / b) by (apply Z.div_le_lower_bound; lia).
  unfold round_half_even.
  destruct (Z.compare (2 * (a mod b)) b); [destruct (Z.even (a / b))|..]; lia.
Qed.

(** The double of a positive integer literal [m]: below [2^53] it is [m]
    itself, from [2^53] on at least [2^53]; [new Date] then keeps [m] exactly
    within the time range. *)
Lemma TimeClip_integer (neg : bool) (m : Z) :
  0 <= m ->
  TimeClip (number_of_literal (LitDecimal neg m 0)) =
    if m <=? max_time_value then Some (if neg then - m else m) else None.
Proof.
  intros Hm0; unfold number_of_literal.
  destruct (Z.eqb_spec m 0) as [->|Hm]; [destruct neg; reflexivity|].
  assert (Hpos : 0 < m) by lia.
  change (309 <=? 0) with false; cbv iota.
  assert (Hl := Z.log2_nonneg m).
  destruct (Z.log2_spec m Hpos) as [Hlo Hhi].
  replace (0 + Z.log2 m + 1 <? -324) with false by (symmetry; apply Z.ltb_ge; lia).
  change (0 <=? 0) with true; cbv iota.
  rewrite Z.mul_1_r; unfold binary64_of_ratio.
  change (Z.log2 1) with 0; rewrite Z.sub_0_r.
  set (l := Z.log2 m) in *.
  destruct (Z_lt_le_dec l 53) as [Hsmall|Hbig].
  - (* below 2^53: exact *)
    assert (Hsc : forall k, k <= 0 -> scale2 m 1 k = (m * 2 ^ (- k), 1)).
    { intros k Hk; unfold scale2; destruct (Z.leb_spec 0 k).
      + replace k with 0 by lia; simpl; rewrite Z.mul_1_r; reflexivity.
      + reflexivity. }
    assert (Hk0 : l - 52 <= 0) by lia.
    assert (Hlow : 2 ^ 52 <= m * 2 ^ (- (l - 52))).
    { replace (2 ^ 52) with (2 ^ l * 2 ^ (- (l - 52)))
        by (rewrite <- Z.pow_add_r by lia; f_equal; lia).
      apply Z.mul_le_mono_nonneg_r; [apply Z.pow_nonneg; lia|exact Hlo]. }
    assert (Hhigh : m * 2 ^ (- (l - 52)) < 2 ^ 53).
    { replace (2 ^ 53) with (2 ^ Z.succ l * 2 ^ (- (l - 52)))
        by (rewrite <- Z.pow_add_r by lia; f_equal; lia).
      apply Z.mul_lt_mono_pos_r; [apply Z.pow_pos_nonneg; lia|exact Hhi]. }
    rewrite (Hsc _ Hk0).
    replace (m * 2 ^ (- (l - 52)) <? 1 * 2 ^ 52) with false
      by (symmetry; apply Z.ltb_ge; lia).
    replace (Z.max (l - 52) (-1074)) with (l - 52) by lia.
    rewrite (Hsc _ Hk0).
    rewrite round_half_even_exact, Z.div_1_r by (lia || apply Z.mod_1_r).
    replace (m * 2 ^ (- (l - 52)) =? 2 ^ 53) with false by (symmetry; apply Z.eqb_neq; lia).
    replace (971 <? l - 52) with false by (symmetry; apply Z.ltb_ge; lia).
    unfold TimeClip.
    destruct (Z.leb_spec 0 (l - 52)) as [Hz|Hz].
    + replace (l - 52) with 0 in * by lia; simpl (2 ^ 0); rewrite !Z.mul_1_r; reflexivity.
    + assert (Hd : 0 < 2 ^ (- (l - 52))) by (apply Z.pow_pos_nonneg; lia).
      rewrite Z.div_mul by lia.
      replace (m * 2 ^ (- (l - 52)) <=? max_time_value * 2 ^ (- (l - 52)))
        with (m <=? max_time_value); [reflexivity|].
      destruct (Z.leb_spec m max_time_value), (Z.leb_spec (m * 2 ^ (- (l - 52)))
                 (max_time_value * 2 ^ (- (l - 52)))); try reflexivity; nia.
  - (* from 2^53 on: beyond the time range *)
    assert (Hmax : max_time_value < m).
    { unfold max_time_value.
      assert (2 ^ 53 <= 2 ^ l) by (apply Z.pow_le_mono_r; lia).
      change (2 ^ 53) with 9007199254740992 in *; lia. }
    replace (m <=? max_time_value) with false by (symmetry; apply Z.leb_gt; exact Hmax).
    assert (Hsc : scale2 m 1 (l - 52) = (m, 2 ^ (l - 52))).
    { unfold scale2; replace (0 <=? l - 52) with true by (symmetry; apply Z.leb_le; lia).
      rewrite Z.mul_1_l; reflexivity. }
    assert (Hpw : 2 ^ 52 * 2 ^ (l - 52) = 2 ^ l)
      by (rewrite <- Z.pow_add_r by lia; f_equal; lia).
    rewrite Hsc.
    replace (m <? 2 ^ (l - 52) * 2 ^ 52) with false
      by (symmetry; apply Z.ltb_ge; lia).
    replace (Z.max (l - 52) (-1074)) with (l - 52) by lia.
    rewrite Hsc.
    assert (Hq : 2 ^ 52 <= round_half_even m (2 ^ (l - 52)))
      by (apply round_half_even_lower; [apply Z.pow_pos_nonneg; lia|lia]).
    set (q := round_half_even m (2 ^ (l - 52))) in *.
    assert (Hfin : forall q' k', 2 ^ 52 <= q' -> 1 <= k' ->
              TimeClip (if 971 <? k' then Infinite neg else Finite neg q' k') = None).
    { intros q' k' Hq' Hk'.
      destruct (971 <? k'); [reflexivity|].
      unfold TimeClip; replace (0 <=? k') with true by (symmetry; apply Z.leb_le; lia).
      assert (2 ^ 1 <= 2 ^ k') by (apply Z.pow_le_mono_r; lia).
      replace (q' * 2 ^ k' <=? max_time_value) with false; [reflexivity|].
      symmetry; apply Z.leb_gt; unfold max_time_value; change (2 ^ 1) with 2 in *.
      change (2 ^ 52) with 4503599627370496 in *; nia. }
    destruct (q =? 2 ^ 53); apply Hfin; lia.
Qed.

Open Scope string_scope.

(** A timestamp of decimal digits, possibly after a minus sign, is titled
    with the host's rendering of exactly the integer it spells when that
    integer is within [8.64e15] in magnitude, and with ["Invalid Date"]
    otherwise: [Number()] rounds the digits to a double, which is exact up
    to [2^53], and a larger integer rounds to a double beyond the time
    range. *)
Theorem formatTime_integer (L : Z -> string) (t : string) :
  numeric_timestamp t = true ->
  formatTime L t =
    if (Z.abs (timestamp_integer t) <=? max_time_value)%Z then L (timestamp_integer t)
    else "Invalid Date".
Proof.
  intros H; destruct (StringToNumber_numeric t H) as (neg & m & Hm & Hs & Ht).
  unfold formatTime, date_toLocaleString; rewrite Hs.
  replace (isNaN (number_of_literal (LitDecimal neg m 0))) with false.
  2:{ unfold number_of_literal, binary64_of_ratio.
      destruct (m =? 0)%Z, (309 <=? 0)%Z, (0 + Z.log2 m + 1 <? -324)%Z, (0 <=? 0)%Z;
        try reflexivity;
        repeat match goal with |- context [let '(_, _) := ?p in _] => destruct p end;
        destruct (971 <? _)%Z; reflexivity. }
  simpl negb; cbv iota; rewrite (TimeClip_integer neg m Hm), Ht.
  replace (Z.abs (if neg then (- m)%Z else m)) with m by (destruct neg; lia).
  destruct (m <=? max_time_value)%Z; reflexivity.
Qed.

(** ** Whitespace around a timestamp *)

Lemma list_ascii_of_string_app (a b : string) :
  list_ascii_of_string (a ++ b) = (list_ascii_of_string a ++ list_ascii_of_string b)%list.
Proof. induction a as [|c a IH]; simpl; [reflexivity|rewrite IH; reflexivity]. Qed.

Lemma drop_while_app (p : ascii -> bool) (l w : list ascii) :
  drop_while p (l ++ w) = if forallb p l then drop_while p w else (drop_while p l ++ w)%list.
Proof.
  induction l as [|c l IH]; simpl; [reflexivity|].
  destruct (p c); simpl; [exact IH|reflexivity].
Qed.

Lemma drop_while_all (p : ascii -> bool) (l : list ascii) :
  forallb p l = true -> drop_while p l = [].
Proof.
  induction l as [|c l IH]; simpl; [reflexivity|].
  intros H; apply andb_true_iff in H as [H1 H2]; rewrite H1; apply IH, H2.
Qed.

Lemma forallb_rev (p : ascii -> bool) (l : list ascii) : forallb p (rev l) = forallb p l.
Proof.
  apply eq_true_iff_eq; rewrite !forallb_forall; split; intros H x Hx;
    apply H; [apply in_rev; rewrite rev_involutive; exact Hx|apply in_rev; exact Hx].
Qed.

Lemma trim_pad (w1 l w2 : list ascii) :
  forallb is_js_whitespace w1 = true -> forallb is_js_whitespace w2 = true ->
  trim (w1 ++ l ++ w2) = trim l.
Proof.
  intros H1 H2; unfold trim.
  rewrite drop_while_app, H1, drop_while_app.
  destruct (forallb is_js_whitespace l) eqn:Hl.
  - rewrite (drop_while_all _ w2 H2), (drop_while_all _ l Hl); reflexivity.
  - rewrite rev_app_distr, drop_while_app, forallb_rev, H2; reflexivity.
Qed.

(** [Number()] ignores the white space around a timestamp, so a padded
    timestamp that is a number gets the same title as the bare one, while a
    padded timestamp that is not a number is shown with its padding. *)
Theorem formatTime_padding (L : Z -> string) (w1 t w2 : string) :
  forallb is_js_whitespace (list_ascii_of_string w1) = true ->
  forallb is_js_whitespace (list_ascii_of_string w2) = true ->
  StringToNumber (w1 ++ t ++ w2) = StringToNumber t /\
  formatTime L (w1 ++ t ++ w2) =
    if isNaN (StringToNumber t) then w1 ++ t ++ w2 else formatTime L t.
Proof.
  intros H1 H2.
  assert (HN : StringToNumber (w1 ++ t ++ w2) = StringToNumber t).
  { unfold StringToNumber; rewrite !list_ascii_of_string_app, trim_pad by assumption.
    reflexivity. }
  split; [exact HN|].
  unfold formatTime; rewrite HN; destruct (isNaN (StringToNumber t)); reflexivity.
Qed.

(** ** The first and third revisions *)

Section Rev1Facts.

Variable markdownToPDF : string -> promise bytes.

Lemma rev1_select_registered (st : Rev1.pipeline) (s : Rev1.selection) (mp : promise string) :
  Rev1.markdownPromise st = Some mp ->
  Rev1.markdownPromise (Rev1.select markdownToPDF st s) = Some mp /\
  Rev1.pdfBufferPromise (Rev1.select markdownToPDF st s) =
    match Rev1.pdfBufferPromise st with
    | Some p => Some p
    | None => if Rev1.is_pdf s then Some (then_ mp markdownToPDF) else None
    end.
Proof.
  destruct st as [ev md pdf cs]; simpl; intros ->.
  destruct s as [f|]; simpl; unfold Rev1.toMarkDown, Rev1.toPDF; simpl;
    destruct pdf; auto.
Qed.

Lemma rev1_fold_registered (sels : list Rev1.selection) (st : Rev1.pipeline)
    (mp : promise string) :
  Rev1.markdownPromise st = Some mp ->
  Rev1.markdownPromise (fold_left (Rev1.select markdownToPDF) sels st) = Some mp /\
  Rev1.pdfBufferPromise (fold_left (Rev1.select markdownToPDF) sels st) =
    match Rev1.pdfBufferPromise st with
    | Some p => Some p
    | None => if existsb Rev1.is_pdf sels then Some (then_ mp markdownToPDF) else None
    end.
Proof.
  revert st; induction sels as [|s r IH]; simpl; intros st H.
  - split; [exact H|destruct (Rev1.pdfBufferPromise st); reflexivity].
  - destruct (rev1_select_registered st s mp H) as [Hm Hp].
    destruct (IH _ Hm) as [Hm' Hp']; split; [exact Hm'|].
    rewrite Hp', Hp.
    destruct (Rev1.pdfBufferPromise st), (Rev1.is_pdf s); reflexivity.
Qed.

(** In the first revision, the Markdown comes from the formatter of the first
    chained call ([toMarkDown(f)] gives [f], [toMarkDown()] or a first
    [toPDF()] give [eventsToMarkdown]) and later [toMarkDown] calls are
    ignored; [toBuffer()] resolves to [markdownToPDF] of that Markdown if
    [toPDF()] was called anywhere in the chain, to its UTF-8 bytes otherwise,
    and to the raw events when nothing was chained. *)
Theorem rev1_toBuffer (src : source) (s : Rev1.selection) (sels : list Rev1.selection) :
  let mp := then_ (fst (gatherAllEvents src))
              (fun events => promise_of_completion (Rev1.first_formatter s events)) in
  Rev1.markdownPromise (Rev1.run markdownToPDF src (s :: sels)) = Some mp /\
  Rev1.toBuffer_result (Rev1.run markdownToPDF src (s :: sels)) =
    (if existsb Rev1.is_pdf (s :: sels)
     then then_ (then_ mp markdownToPDF) (fun b => Fulfilled (OBuffer b))
     else then_ mp (fun markdown => Fulfilled (OBuffer (utf8_encode markdown)))) /\
  Rev1.toBuffer_result (Rev1.run markdownToPDF src []) =
    then_ (fst (gatherAllEvents src)) (fun events => Fulfilled (OEvents events)).
Proof.
  intros mp.
  set (st0 := Rev1.select markdownToPDF (Rev1.allEvents src) s).
  assert (Hm0 : Rev1.markdownPromise st0 = Some mp).
  { subst st0 mp; destruct s as [[f|]|]; reflexivity. }
  assert (Hp0 : Rev1.pdfBufferPromise st0 =
                if Rev1.is_pdf s then Some (then_ mp markdownToPDF) else None).
  { subst st0 mp; destruct s as [[f|]|]; reflexivity. }
  unfold Rev1.run; simpl fold_left; fold st0.
  destruct (rev1_fold_registered sels st0 mp Hm0) as [Hm Hp].
  split; [exact Hm|split; [|reflexivity]].
  unfold Rev1.toBuffer_result; rewrite Hp, Hp0, Hm; simpl.
  destruct (Rev1.is_pdf s); simpl; [reflexivity|].
  destruct (existsb Rev1.is_pdf sels); reflexivity.
Qed.

End Rev1Facts.

Section Rev3Facts.

Variable htmlToPDF : string -> promise bytes.

(** In the third revision, [toPDF()] alone renders [eventsToHTML] of the
    events; after [toMarkDown()] it renders [eventsToHTML] of a single event
    titled [Markdown Content] whose value is the Markdown with its line feeds
    replaced by [<br>]; and when [toHTML()] was called as well, it renders the
    HTML and ignores the Markdown. *)
Theorem rev3_toPDF (src : source) :
  let ev := fst (gatherAllEvents src) in
  Rev3.toBuffer_result (Rev3.run htmlToPDF src [Rev3.SelPDF]) =
    then_ ev (fun events => then_ (htmlToPDF (Rev3.eventsToHTML events))
                                  (fun b => Fulfilled (OBuffer b))) /\
  Rev3.toBuffer_result (Rev3.run htmlToPDF src [Rev3.SelMarkDown None; Rev3.SelPDF]) =
    then_ ev (fun events =>
      then_ (htmlToPDF (Rev3.eventsToHTML
                          [mkEvent "Markdown Content"
                             (replace_newlines (Rev3.eventsToMarkdown events))]))
            (fun b => Fulfilled (OBuffer b))) /\
  Rev3.toBuffer_result
    (Rev3.run htmlToPDF src [Rev3.SelMarkDown None; Rev3.SelHTML None; Rev3.SelPDF]) =
    Rev3.toBuffer_result (Rev3.run htmlToPDF src [Rev3.SelPDF]).
Proof.
  intros ev; subst ev.
  unfold Rev3.run, Rev3.allEvents; simpl.
  unfold Rev3.toPDF, Rev3.toHTML, Rev3.toMarkDown, Rev3.toBuffer_result; simpl.
  destruct (fst (gatherAllEvents src)) as [|evs|e]; simpl;
    (split; [reflexivity|split; reflexivity]).
Qed.

End Rev3Facts.

Lemma html_formatter_throw_rejects_witness :
  toBuffer_result (run en_US_UTC sample_htmlToPDF [FEnd] "tl"
    [SelHTML (Some (fun _ _ => Throw (FormatError "bad"))); SelMarkDown None; SelPDF;
     SelHTML None]) = Rejected (FormatError "bad").
Proof.
  assert (H1 : fst (gatherAllEvents [FEnd]) = Fulfilled []) by reflexivity.
  assert (H2 : (fun (_ : list event) (_ : string) => Throw (A := string) (FormatError "bad"))
                 [] "tl" = Throw (FormatError "bad")) by reflexivity.
  destruct (html_formatter_throw_rejects en_US_UTC sample_htmlToPDF [FEnd] "tl" []
              (fun _ _ => Throw (FormatError "bad")) (FormatError "bad")
              [SelMarkDown None; SelPDF; SelHTML None] H1 H2) as [H _].
  exact H.
Defined.

Lemma json_formatters_null_record_witness :
  buildJSONMarkdownFormatter en_US_UTC json_parse_subset node_proto_lookup ["title"]
    [mkEvent "1000" "{}"; mkEvent "2000" "null"; mkEvent "3000" "{}"] "tl" =
    Throw (TypeError "Cannot read properties of null (reading 'title')").
Proof.
  assert (Hpre : Forall (fun e' => error_of (json_markdown_section en_US_UTC json_parse_subset
                                     node_proto_lookup ["title"] e') = None)
                   [mkEvent "1000" "{}"])
    by (constructor; [vm_compute; reflexivity|constructor]).
  assert (He : json_parse_subset (value (mkEvent "2000" "null")) = Some JNull)
    by (vm_compute; reflexivity).
  destruct (json_formatters_null_record en_US_UTC json_parse_subset node_proto_lookup
              ascii_toUpperCase "title" [] [mkEvent "1000" "{}"] [mkEvent "3000" "{}"]
              (mkEvent "2000" "null") "tl" Hpre He) as [H _].
  exact H.
Defined.

Lemma formatTime_padding_witness :
  formatTime en_US_UTC (" " ++ "1000" ++ String "009" EmptyString) =
    formatTime en_US_UTC "1000".
Proof.
  assert (H1 : forallb is_js_whitespace (list_ascii_of_string " ") = true) by reflexivity.
  assert (H2 : forallb is_js_whitespace (list_ascii_of_string (String "009" EmptyString))
               = true) by reflexivity.
  destruct (formatTime_padding en_US_UTC " " "1000" (String "009" EmptyString) H1 H2)
    as [_ H].
  rewrite H; reflexivity.
Defined.

Lemma formatTime_integer_witness :
  numeric_timestamp "-1700000000000" = true /\
  formatTime en_US_UTC "-1700000000000" = en_US_UTC (-1700000000000)%Z.
Proof.
  assert (H : numeric_timestamp "-1700000000000" = true) by reflexivity.
  split; [exact H|].
  rewrite (formatTime_integer en_US_UTC "-1700000000000" H); vm_compute; reflexivity.
Defined.
